(** * resume-build: the résumé generator [generate_resume.py]

    A shallow embedding of the script and the properties of its document
    assembler, its command line and its PDF bridge.

    - Python values are the ones [json.load] builds ([value]).
    - The word-processing library is outside the repository; the three
      primitives the script calls ([Document.add_paragraph],
      [Document.add_heading], [Paragraph.add_run]) are modelled on an
      explicit document store, and the objects they return are handles
      into that store, so that the script's later mutations of a
      paragraph or a run are writes through the handle.
    - The assembler is written in a state-and-exception monad over the
      store, statement by statement as in the source. *)

From Stdlib Require Import ZArith Floats Ascii.
From stdpp Require Import base option list strings gmap.

Set Warnings "-register-all".

(* ===================================================================== *)
(** * Python values *)
(* ===================================================================== *)

(** What [json.load] returns: [None], [bool], [int], [float], [str],
    [list] and [dict] with [str] keys. A [str] is kept as its UTF-8
    bytes. *)
Inductive value : Type :=
| VNone
| VBool (b : bool)
| VInt (z : Z)
| VFloat (f : float)
| VStr (s : string)
| VList (l : list value)
| VDict (o : gmap string value).

(** Exceptions the assembler's own operations can raise. *)
Inductive exn : Type :=
| AttributeError   (* [.get] on an object that is not a dict *)
| KeyError         (* [d[k]] with [k] missing *)
| TypeError.       (* iterating a non-iterable, joining a non-str *)

Inductive result (A : Type) : Type :=
| Ok (a : A)
| Raise (e : exn).
Arguments Ok {A} a.
Arguments Raise {A} e.

(** [bool(v)]: Python's truth value. *)
Definition truthy (v : value) : bool :=
  match v with
  | VNone => false
  | VBool b => b
  | VInt z => negb (z =? 0)%Z
  | VFloat f => negb (PrimFloat.eqb f 0%float)
  | VStr s => match s with EmptyString => false | String _ _ => true end
  | VList l => match l with [] => false | _ :: _ => true end
  | VDict o => negb (size o =? 0)%nat
  end.

(** [isinstance(v, list)] and [isinstance(v, dict)]. *)
Definition is_list (v : value) : bool :=
  match v with VList _ => true | _ => false end.

Definition is_dict (v : value) : bool :=
  match v with VDict _ => true | _ => false end.

(** [v.get(k, default)]: only a dict has the method. *)
Definition py_get (v : value) (k : string) (default : value) : result value :=
  match v with
  | VDict o => Ok (from_option id default (o !! k))
  | _ => Raise AttributeError
  end.

(** [v[k]] for a string key (the script subscripts dicts only, and only
    after [v.get(k)] succeeded). *)
Definition py_item (v : value) (k : string) : result value :=
  match v with
  | VDict o => match o !! k with Some x => Ok x | None => Raise KeyError end
  | _ => Raise TypeError
  end.

(** A byte that continues a UTF-8 sequence (10xxxxxx). *)
Definition is_continuation (a : ascii) : bool :=
  let n := nat_of_ascii a in (128 <=? n)%nat && (n <? 192)%nat.

(** The code points of a [str], each as a one-character [str]. *)
Fixpoint code_points (s : string) : list string :=
  match s with
  | EmptyString => []
  | String a rest =>
      match code_points rest with
      | [] => [String a EmptyString]
      | c :: cs =>
          match c with
          | String b _ =>
              if is_continuation b then String a c :: cs
              else String a EmptyString :: c :: cs
          | EmptyString => String a EmptyString :: cs
          end
      end
  end.

(** [iter(v)], as a [for] loop sees it: the elements of a list, the
    characters of a str, the keys of a dict; other values are not
    iterable. *)
Definition py_iter (v : value) : result (list value) :=
  match v with
  | VList l => Ok l
  | VStr s => Ok (VStr <$> code_points s)
  | VDict o => Ok (VStr <$> (map_to_list o).*1)
  | _ => Raise TypeError
  end.

(** [sep.join(parts)] on strings. *)
Fixpoint join (sep : string) (parts : list string) : string :=
  match parts with
  | [] => ""
  | [p] => p
  | p :: rest => p +:+ sep +:+ join sep rest
  end.

(** The elements of a list when every one is a [str]. *)
Fixpoint all_str (l : list value) : option (list string) :=
  match l with
  | [] => Some []
  | VStr s :: rest => cons s <$> all_str rest
  | _ :: _ => None
  end.

(** [sep.join(v)] for a list [v]: a [TypeError] when an element is not a
    [str]. *)
Definition py_join (sep : string) (v : value) : result string :=
  match v with
  | VList l =>
      match all_str l with
      | Some parts => Ok (join sep parts)
      | None => Raise TypeError
      end
  | _ => Raise TypeError
  end.

(** [s.endswith(suffix)]. *)
Definition endswith (s suffix : string) : bool :=
  let n := String.length s in
  let m := String.length suffix in
  (m <=? n)%nat && String.eqb (String.substring (n - m) m s) suffix.

(** [s.replace(old, new)] for a non-empty [old]: every occurrence, left
    to right, without overlap. [skip] counts the characters of a matched
    occurrence still to be dropped. *)
Fixpoint replace_from (skip : nat) (old new s : string) : string :=
  match s with
  | EmptyString => EmptyString
  | String a rest =>
      match skip with
      | S k => replace_from k old new rest
      | O =>
          if String.prefix old s
          then new +:+ replace_from (String.length old - 1) old new rest
          else String a (replace_from 0 old new rest)
      end
  end.

Definition replace (old new s : string) : string := replace_from 0 old new s.

(* ===================================================================== *)
(** * The document store *)
(* ===================================================================== *)

(** Lengths are in English Metric Units, as the library keeps them:
    [Pt(n)] is [n * 12700], an inch is [914400]. *)
Definition Pt (n : Z) : Z := (n * 12700)%Z.

(** [Inches(indent * 0.25)] for an integer [indent]: a quarter inch is
    exactly [228600] EMU. *)
Definition Inches_quarters (indent : Z) : Z := (indent * 228600)%Z.

(** The font slots of a run's [w:rFonts] element. *)
Record rfonts : Type := mk_rfonts {
  f_ascii : option string;
  f_hAnsi : option string;
  f_eastAsia : option string;
  f_cs : option string
}.

(** A run. [r_text] is the object handed to the library as the run's
    text: for a [str] it is the text of the run. *)
Record run : Type := mk_run {
  r_text : value;
  r_fonts : rfonts;
  r_size : option Z;
  r_bold : option bool;
  r_italic : option bool;
  r_color : option (Z * Z * Z)
}.

(** The paragraph styles the script uses: the default one, the heading
    of a level, and ['List Bullet']. *)
Inductive style : Type :=
| Normal
| Heading (level : Z)
| ListBullet.

Inductive alignment : Type :=
| LEFT.

Record paragraph : Type := mk_paragraph {
  p_style : style;
  p_runs : list run;
  p_alignment : option alignment;
  p_left_indent : option Z;
  p_space_before : option Z;
  p_space_after : option Z
}.

(** The document being built: its body paragraphs in order, and the font
    of its ['Normal'] style. *)
Record document : Type := mk_document {
  body : list paragraph;
  normal_font_name : option string;
  normal_font_size : option Z
}.

(** [Document()]. *)
Definition Document : document :=
  {| body := []; normal_font_name := None; normal_font_size := None |}.

Definition set_body (ps : list paragraph) (d : document) : document :=
  {| body := ps;
     normal_font_name := normal_font_name d;
     normal_font_size := normal_font_size d |}.

Definition set_p_runs (rs : list run) (p : paragraph) : paragraph :=
  {| p_style := p_style p; p_runs := rs; p_alignment := p_alignment p;
     p_left_indent := p_left_indent p; p_space_before := p_space_before p;
     p_space_after := p_space_after p |}.

(** A run as the library creates it: no formatting of its own. *)
Definition new_run (text : value) : run :=
  {| r_text := text;
     r_fonts := mk_rfonts None None None None;
     r_size := None; r_bold := None; r_italic := None; r_color := None |}.

(** A paragraph as the library creates it. *)
Definition new_paragraph (st : style) (rs : list run) : paragraph :=
  {| p_style := st; p_runs := rs; p_alignment := None;
     p_left_indent := None; p_space_before := None; p_space_after := None |}.

(** A paragraph handle is its index in the body; a run handle is the
    paragraph's handle and the run's index in it. *)
Definition para_ref : Type := nat.
Definition run_ref : Type := (nat * nat)%type.

(* ===================================================================== *)
(** * The monad of the assembler: document state and exceptions *)
(* ===================================================================== *)

Definition M (A : Type) : Type := document -> result (A * document).

#[global] Instance M_ret : MRet M := fun A a d => Ok (a, d).

#[global] Instance M_bind : MBind M := fun A B f m d =>
  match m d with
  | Ok (a, d') => f a d'
  | Raise e => Raise e
  end.

(** A pure, fallible operation run inside the monad. *)
Definition lift {A : Type} (r : result A) : M A := fun d =>
  match r with
  | Ok a => Ok (a, d)
  | Raise e => Raise e
  end.

Definition modify (f : document -> document) : M unit := fun d => Ok (tt, f d).

(** [for x in xs: body(x)]. *)
Fixpoint for_each {A : Type} (xs : list A) (f : A -> M unit) : M unit :=
  match xs with
  | [] => mret tt
  | x :: rest => f x ;; for_each rest f
  end.

(** ** The library's primitives *)

(** [document.add_paragraph(text, style)]: appends a paragraph; a run
    holding [text] is created when [text] is not empty. [style=None] is
    [Normal]; [document.add_paragraph()] is [doc_add_paragraph (VStr "")
    Normal]. *)
Definition doc_add_paragraph (text : value) (st : style) : M para_ref := fun d =>
  Ok (length (body d),
      set_body (body d ++ [new_paragraph st (if truthy text then [new_run text] else [])]) d).

(** [document.add_heading(text, level)]: a paragraph in the heading style
    of that level. *)
Definition doc_add_heading (text : value) (level : Z) : M para_ref :=
  doc_add_paragraph text (Heading level).

(** [para.add_run(text)]: appends a run to the paragraph; its text is set
    when [text] is not empty. *)
Definition para_add_run (p : para_ref) (text : value) : M run_ref := fun d =>
  Ok ((p, length (from_option p_runs [] (body d !! p))),
      set_body
        (alter (fun par =>
                  set_p_runs (p_runs par ++ [new_run (if truthy text then text else VStr "")]) par)
               p (body d)) d).

(** [para.runs], as handles. *)
Definition para_runs (p : para_ref) : M (list run_ref) := fun d =>
  Ok (pair p <$> seq 0 (length (from_option p_runs [] (body d !! p))), d).

Definition update_paragraph (p : para_ref) (f : paragraph -> paragraph) : M unit :=
  modify (fun d => set_body (alter f p (body d)) d).

Definition update_run (r : run_ref) (f : run -> run) : M unit :=
  update_paragraph r.1 (fun par => set_p_runs (alter f r.2 (p_runs par)) par).

(** [para.alignment = a]. *)
Definition set_alignment (p : para_ref) (a : alignment) : M unit :=
  update_paragraph p (fun par =>
    {| p_style := p_style par; p_runs := p_runs par; p_alignment := Some a;
       p_left_indent := p_left_indent par; p_space_before := p_space_before par;
       p_space_after := p_space_after par |}).

(** [para.paragraph_format.left_indent = x]. *)
Definition set_left_indent (p : para_ref) (x : Z) : M unit :=
  update_paragraph p (fun par =>
    {| p_style := p_style par; p_runs := p_runs par; p_alignment := p_alignment par;
       p_left_indent := Some x; p_space_before := p_space_before par;
       p_space_after := p_space_after par |}).

(** [para.paragraph_format.space_before = x]. *)
Definition set_space_before (p : para_ref) (x : Z) : M unit :=
  update_paragraph p (fun par =>
    {| p_style := p_style par; p_runs := p_runs par; p_alignment := p_alignment par;
       p_left_indent := p_left_indent par; p_space_before := Some x;
       p_space_after := p_space_after par |}).

(** [para.paragraph_format.space_after = x]. *)
Definition set_space_after (p : para_ref) (x : Z) : M unit :=
  update_paragraph p (fun par =>
    {| p_style := p_style par; p_runs := p_runs par; p_alignment := p_alignment par;
       p_left_indent := p_left_indent par; p_space_before := p_space_before par;
       p_space_after := Some x |}).

(* ===================================================================== *)
(** * The script's helpers *)
(* ===================================================================== *)

(** [set_run_font(run, font_name='Calibri', font_size=11, bold=False,
    italic=False, color=None)]. *)
Definition set_run_font (r : run_ref) (font_name : string) (font_size : Z)
    (bold italic : bool) (color : option (Z * Z * Z)) : M unit :=
  update_run r (fun x =>
    {| r_text := r_text x;
       r_fonts := {| f_ascii := Some font_name; f_hAnsi := Some font_name;
                     f_eastAsia := f_eastAsia (r_fonts x); f_cs := f_cs (r_fonts x) |};
       r_size := r_size x; r_bold := r_bold x; r_italic := r_italic x;
       r_color := r_color x |}) ;;
  update_run r (fun x =>
    {| r_text := r_text x; r_fonts := r_fonts x;
       r_size := Some (Pt font_size); r_bold := r_bold x; r_italic := r_italic x;
       r_color := r_color x |}) ;;
  update_run r (fun x =>
    {| r_text := r_text x; r_fonts := r_fonts x;
       r_size := r_size x; r_bold := Some bold; r_italic := r_italic x;
       r_color := r_color x |}) ;;
  update_run r (fun x =>
    {| r_text := r_text x; r_fonts := r_fonts x;
       r_size := r_size x; r_bold := r_bold x; r_italic := Some italic;
       r_color := r_color x |}) ;;
  match color with
  | Some c =>
      update_run r (fun x =>
        {| r_text := r_text x; r_fonts := r_fonts x;
           r_size := r_size x; r_bold := r_bold x; r_italic := r_italic x;
           r_color := Some c |})
  | None => mret tt
  end ;;
  update_run r (fun x =>
    {| r_text := r_text x;
       r_fonts := {| f_ascii := f_ascii (r_fonts x); f_hAnsi := f_hAnsi (r_fonts x);
                     f_eastAsia := Some font_name; f_cs := f_cs (r_fonts x) |};
       r_size := r_size x; r_bold := r_bold x; r_italic := r_italic x;
       r_color := r_color x |}).

(** [add_heading(document, text, level=1, size=16, bold=True)]. *)
Definition add_heading (text : value) (level size : Z) (bold : bool) : M para_ref :=
  heading ← doc_add_heading text level;
  set_alignment heading LEFT ;;
  runs ← para_runs heading;
  for_each runs (fun r => set_run_font r "Calibri" size bold false None) ;;
  mret heading.

(** [add_paragraph_with_style(document, text, size=11, bold=False,
    color=None)]. *)
Definition add_paragraph_with_style (text : value) (size : Z) (bold : bool)
    (color : option (Z * Z * Z)) : M para_ref :=
  para ← doc_add_paragraph (VStr "") Normal;
  r ← para_add_run para text;
  set_run_font r "Calibri" size bold false color ;;
  mret para.

(** [add_section_header(document, text)]. *)
Definition add_section_header (text : value) : M para_ref :=
  para ← doc_add_paragraph (VStr "") Normal;
  r ← para_add_run para text;
  set_run_font r "Calibri" 14 true false (Some (0, 51, 102)%Z) ;;
  set_space_before para (Pt 12) ;;
  set_space_after para (Pt 6) ;;
  mret para.

(** [add_bullet_point(document, text, indent=0)]. *)
Definition add_bullet_point (text : value) (indent : Z) : M para_ref :=
  para ← doc_add_paragraph text ListBullet;
  set_left_indent para (Inches_quarters indent) ;;
  runs ← para_runs para;
  for_each runs (fun r => set_run_font r "Calibri" 11 false false None) ;;
  mret para.

(* ===================================================================== *)
(** * The assembler: lines 84-194 of [generate_resume] *)
(* ===================================================================== *)

Section Assembler.

(** [repr(v)] of Python, for the values that are not a [str]; it is the
    interpreter's, not the script's. *)
Variable repr : value -> string.

(** [str(v)], which is also what an f-string puts in place of [{v}]: a
    [str] is itself, any other value of [json.load] prints as its
    [repr]. *)
Definition py_str (v : value) : string :=
  match v with
  | VStr s => s
  | _ => repr v
  end.

Definition grey : option (Z * Z * Z) := Some (100, 100, 100)%Z.

(** One of the five [if personal.get(key): contact_info.append(f"...")]
    statements. *)
Definition contact_entry (personal : value) (key label : string)
    (contact_info : list string) : M (list string) :=
  x ← lift (py_get personal key VNone);
  if truthy x
  then y ← lift (py_item personal key);
       mret (contact_info ++ [label +:+ py_str y])
  else mret contact_info.

(** Lines 90-114: the name heading, the contact line, a blank line. *)
Definition render_header (data : value) : M unit :=
  info ← lift (py_get data "personal_info" (VDict ∅));
  name ← lift (py_get info "name" (VStr "Имя Фамилия"));
  add_heading name 1 20 true ;;
  personal ← lift (py_get data "personal_info" (VDict ∅));
  contact_info ← contact_entry personal "email" "Email: " [];
  contact_info ← contact_entry personal "phone" "Телефон: " contact_info;
  contact_info ← contact_entry personal "location" "Местоположение: " contact_info;
  contact_info ← contact_entry personal "linkedin" "LinkedIn: " contact_info;
  contact_info ← contact_entry personal "github" "GitHub: " contact_info;
  match contact_info with
  | _ :: _ =>
      para ← doc_add_paragraph (VStr (join " | " contact_info)) Normal;
      set_alignment para LEFT ;;
      runs ← para_runs para;
      for_each runs (fun r => set_run_font r "Calibri" 10 false false grey)
  | [] => mret tt
  end ;;
  doc_add_paragraph (VStr "") Normal ;;
  mret tt.

(** Lines 116-120: the summary. *)
Definition render_summary (data : value) : M unit :=
  s ← lift (py_get data "summary" VNone);
  if truthy s
  then add_section_header (VStr "О себе") ;;
       text ← lift (py_item data "summary");
       add_paragraph_with_style text 11 false None ;;
       doc_add_paragraph (VStr "") Normal ;;
       mret tt
  else mret tt.

(** Lines 126-147: one experience entry. *)
Definition render_experience_entry (exp : value) : M unit :=
  position ← lift (py_get exp "position" (VStr "Должность"));
  company ← lift (py_get exp "company" (VStr "Компания"));
  let title_company := py_str position +:+ " | " +:+ py_str company in
  para ← doc_add_paragraph (VStr "") Normal;
  r ← para_add_run para (VStr title_company);
  set_run_font r "Calibri" 12 true false None ;;
  period ← lift (py_get exp "period" (VStr ""));
  (if truthy period
   then para ← doc_add_paragraph (VStr "") Normal;
        r ← para_add_run para period;
        set_run_font r "Calibri" 10 false true grey
   else mret tt) ;;
  description ← lift (py_get exp "description" VNone);
  (if truthy description
   then d ← lift (py_item exp "description");
        if is_list d
        then d ← lift (py_item exp "description");
             items ← lift (py_iter d);
             for_each items (fun item => add_bullet_point item 1 ;; mret tt)
        else d ← lift (py_item exp "description");
             add_paragraph_with_style d 11 false None ;;
             mret tt
   else mret tt) ;;
  doc_add_paragraph (VStr "") Normal ;;
  mret tt.

(** Lines 122-147: the experience section. *)
Definition render_experience (data : value) : M unit :=
  e ← lift (py_get data "experience" VNone);
  if truthy e
  then add_section_header (VStr "Опыт работы") ;;
       e ← lift (py_item data "experience");
       entries ← lift (py_iter e);
       for_each entries render_experience_entry
  else mret tt.

(** Lines 153-166: one education entry. *)
Definition render_education_entry (edu : value) : M unit :=
  degree ← lift (py_get edu "degree" (VStr "Степень"));
  school ← lift (py_get edu "school" (VStr "Учебное заведение"));
  let degree_school := py_str degree +:+ " | " +:+ py_str school in
  para ← doc_add_paragraph (VStr "") Normal;
  r ← para_add_run para (VStr degree_school);
  set_run_font r "Calibri" 12 true false None ;;
  period ← lift (py_get edu "period" (VStr ""));
  (if truthy period
   then para ← doc_add_paragraph (VStr "") Normal;
        r ← para_add_run para period;
        set_run_font r "Calibri" 10 false true grey
   else mret tt) ;;
  doc_add_paragraph (VStr "") Normal ;;
  mret tt.

(** Lines 149-166: the education section. *)
Definition render_education (data : value) : M unit :=
  e ← lift (py_get data "education" VNone);
  if truthy e
  then add_section_header (VStr "Образование") ;;
       e ← lift (py_item data "education");
       entries ← lift (py_iter e);
       for_each entries render_education_entry
  else mret tt.

(** Lines 168-173: the skills. *)
Definition render_skills (data : value) : M unit :=
  s ← lift (py_get data "skills" VNone);
  if truthy s
  then add_section_header (VStr "Навыки") ;;
       s ← lift (py_item data "skills");
       skills_text ←
         (if is_list s
          then s ← lift (py_item data "skills");
               text ← lift (py_join ", " s);
               mret (VStr text)
          else lift (py_item data "skills"));
       add_paragraph_with_style skills_text 11 false None ;;
       doc_add_paragraph (VStr "") Normal ;;
       mret tt
  else mret tt.

(** Lines 181-191: one item of a section whose content is a list. *)
Definition render_section_item (item : value) : M unit :=
  if is_dict item
  then key ← lift (py_get item "key" (VStr ""));
       val ← lift (py_get item "value" (VStr ""));
       para ← doc_add_paragraph (VStr "") Normal;
       run1 ← para_add_run para (VStr (py_str key +:+ ": "));
       set_run_font run1 "Calibri" 11 true false None ;;
       run2 ← para_add_run para val;
       set_run_font run2 "Calibri" 11 false false None
  else add_bullet_point (VStr (py_str item)) 1 ;; mret tt.

(** Lines 178-194: one additional section. *)
Definition render_section (section : value) : M unit :=
  title ← lift (py_get section "title" (VStr "Раздел"));
  add_section_header title ;;
  content ← lift (py_get section "content" VNone);
  (if is_list content
   then content ← lift (py_item section "content");
        items ← lift (py_iter content);
        for_each items render_section_item
   else content ← lift (py_get section "content" (VStr ""));
        add_paragraph_with_style (VStr (py_str content)) 11 false None ;;
        mret tt) ;;
  doc_add_paragraph (VStr "") Normal ;;
  mret tt.

(** Lines 175-194: the additional sections. *)
Definition render_additional (data : value) : M unit :=
  a ← lift (py_get data "additional_sections" VNone);
  if truthy a
  then a ← lift (py_item data "additional_sections");
       sections ← lift (py_iter a);
       for_each sections render_section
  else mret tt.

(** Lines 82-194: the document [generate_resume] builds from the parsed
    record, before it is saved. The blocks run in the order of the
    source. *)
Definition assemble (data : value) : M unit :=
  modify (fun d => {| body := body d; normal_font_name := Some "Calibri";
                      normal_font_size := Some (Pt 11) |}) ;;
  render_header data ;;
  render_summary data ;;
  render_experience data ;;
  render_education data ;;
  render_skills data ;;
  render_additional data.

(** The document built from scratch, or the exception that ends the
    run. *)
Definition build (data : value) : result document :=
  match assemble data Document with
  | Ok (_, d) => Ok d
  | Raise e => Raise e
  end.

End Assembler.

(* ===================================================================== *)
(** * The program around the assembler *)
(* ===================================================================== *)

(** What [json.load] makes of the text of a file. *)
Inductive load_result : Type :=
| Loaded (data : value)
| JSONDecodeError (detail : string)     (* [detail] is [str(e)] *)
| UnicodeDecodeError.

(** How [subprocess.run(cmd, capture_output=True, text=True, check=True)]
    ends: normally, with a non-zero exit status ([stderr], [stdout] and
    [str(e)] of the exception), or without finding the executable. *)
Inductive run_result : Type :=
| Completed
| CalledProcessError (stderr stdout text : string)
| RunFileNotFound.

(** How [os.rename(src, dst)] ends: the file system after the move, a
    [FileNotFoundError] (a directory of [dst] is missing), or another
    [OSError]. *)
Inductive rename_result : Type :=
| Renamed (fs : gmap string string)
| RenameFileNotFound
| RenameOSError.

(** How [docx2pdf.convert] ends. *)
Inductive convert_result : Type :=
| Converted
| ConvertImportError
| ConvertException (text : string).     (* [text] is [str(e2)] *)

(** The file system: the content of each file, by absolute path. *)
Abbreviation filesystem := (gmap string string).

(** Everything the script takes from the interpreter, the libraries and
    the operating system. None of it is in the repository. *)
Record host : Type := mk_host {
  h_repr : value -> string;                       (* [repr] *)
  h_json_load : string -> load_result;            (* [json.load] *)
  h_docx_bytes : document -> string;              (* what [doc.save] writes *)
  h_can_save : string -> filesystem -> bool;      (* [doc.save(path)] can write *)
  h_abspath : string -> string;                   (* [os.path.abspath] *)
  h_dirname : string -> string;                   (* [os.path.dirname] *)
  h_basename : string -> string;                  (* [os.path.basename] *)
  h_join : string -> string -> string;            (* [os.path.join] *)
  h_which : string -> option string;              (* [shutil.which] *)
  h_getenv : string -> option string;             (* [os.environ.get] *)
  h_run : list string -> filesystem -> run_result * filesystem;
                                                  (* [subprocess.run] *)
  h_rename : string -> string -> filesystem -> rename_result;
                                                  (* [os.rename] *)
  h_docx2pdf : option (string -> string -> filesystem -> convert_result * filesystem)
                      (* [from docx2pdf import convert]; [None]: [ImportError] *)
}.

(** Calls that leave the process, in the order they are made. *)
Inductive event : Type :=
| DockerLookup                               (* [shutil.which('docker')] *)
| DockerRun (cmd : list string)              (* [subprocess.run(docker_cmd)] *)
| Docx2pdfImport                             (* [from docx2pdf import convert] *)
| Docx2pdfConvert (src dst : string).        (* [convert(src, dst)] *)

Record world : Type := mk_world {
  files : filesystem;
  stdout : list string;       (* one entry for each [print] *)
  events : list event
}.

(** [print(line)]. *)
Definition print (line : string) (w : world) : world :=
  {| files := files w; stdout := stdout w ++ [line]; events := events w |}.

Definition log (e : event) (w : world) : world :=
  {| files := files w; stdout := stdout w; events := events w ++ [e] |}.

Definition with_files (fs : filesystem) (w : world) : world :=
  {| files := fs; stdout := stdout w; events := events w |}.

(** Exceptions no handler of the script catches. *)
Inductive uncaught : Type :=
| Assembling (e : exn)
| DecodeError
| OSError.

(** How a run of the script, or of one of its stages, ends. *)
Inductive outcome : Type :=
| Finished                   (* ran to its end *)
| SysExit (code : Z)         (* [sys.exit(code)] *)
| Uncaught (e : uncaught).   (* a traceback *)

(** The exit status of the process. *)
Definition exit_status (o : outcome) : Z :=
  match o with
  | Finished => 0
  | SysExit code => code
  | Uncaught _ => 1
  end.

Section Program.

Variable h : host.

(** The file at a path, as [open] and [os.path.exists] find it. *)
Definition file_at (w : world) (path : string) : option string :=
  files w !! h_abspath h path.

(** [generate_resume(data_file, output_file)], lines 66-198. *)
Definition generate_resume (data_file output_file : string) (w : world)
    : outcome * world :=
  match file_at w data_file with
  | None =>
      (SysExit 1,
       print "Создайте файл resume_data.json с данными резюме."
         (print ("Ошибка: файл " +:+ data_file +:+ " не найден!") w))
  | Some text =>
      match h_json_load h text with
      | JSONDecodeError detail =>
          (SysExit 1, print ("Ошибка при чтении JSON: " +:+ detail) w)
      | UnicodeDecodeError => (Uncaught DecodeError, w)
      | Loaded data =>
          match build (h_repr h) data with
          | Raise e => (Uncaught (Assembling e), w)
          | Ok doc =>
              if h_can_save h output_file (files w)
              then (Finished,
                    print ("Резюме успешно создано: " +:+ output_file)
                      (with_files (<[h_abspath h output_file := h_docx_bytes h doc]> (files w)) w))
              else (Uncaught OSError, w)
          end
      end
  end.

(** How [convert_docx_to_pdf_docker] ends: it returns the path of the
    PDF, raises [RuntimeError(msg)], or lets an [OSError] of the move
    through. *)
Inductive docker_result : Type :=
| Returned (pdf_abs : string)
| RuntimeError (msg : string)
| MoveFailed.

Definition docker_not_installed : string :=
  "Docker не установлен или не доступен в PATH".

Definition docker_not_found : string :=
  "Docker не найден. Убедитесь, что Docker установлен и доступен.".

(** [s] as a condition: a non-empty string. *)
Definition nonempty (s : string) : bool :=
  match s with EmptyString => false | String _ _ => true end.

(** [convert_docx_to_pdf_docker(docx_file, pdf_file=None)], lines
    201-250. *)
Definition convert_docx_to_pdf_docker (docx_file : string) (pdf_file : option string)
    (w : world) : docker_result * world :=
  let pdf_file := default (replace ".docx" ".pdf" docx_file) pdf_file in
  let docx_abs := h_abspath h docx_file in
  let pdf_abs := h_abspath h pdf_file in
  let work_dir := h_dirname h docx_abs in
  let docx_name := h_basename h docx_abs in
  let w := log DockerLookup w in
  match h_which h "docker" with
  | None => (RuntimeError docker_not_installed, w)
  | Some _ =>
      let docker_image :=
        default "linuxserver/libreoffice:latest" (h_getenv h "LIBREOFFICE_DOCKER_IMAGE") in
      let docker_cmd :=
        ["docker"; "run"; "--rm";
         "-v"; work_dir +:+ ":/convert";
         docker_image;
         "libreoffice"; "--headless"; "--convert-to"; "pdf";
         "--outdir"; "/convert";
         "/convert/" +:+ docx_name] in
      let w := log (DockerRun docker_cmd) w in
      match h_run h docker_cmd (files w) with
      | (Completed, fs) =>
          let generated_pdf := h_join h work_dir (replace ".docx" ".pdf" docx_name) in
          if bool_decide (is_Some (fs !! h_abspath h generated_pdf))
             && negb (String.eqb generated_pdf pdf_abs)
          then
            let fs :=
              if bool_decide (is_Some (fs !! h_abspath h pdf_abs))
              then delete (h_abspath h pdf_abs) fs
              else fs in
            match h_rename h generated_pdf pdf_abs fs with
            | Renamed fs => (Returned pdf_abs, with_files fs w)
            | RenameFileNotFound => (RuntimeError docker_not_found, with_files fs w)
            | RenameOSError => (MoveFailed, with_files fs w)
            end
          else (Returned pdf_abs, with_files fs w)
      | (CalledProcessError stderr stdout text, fs) =>
          let error_msg :=
            if nonempty stderr then stderr
            else if nonempty stdout then stdout
            else text in
          (RuntimeError ("Ошибка при конвертации через Docker: " +:+ error_msg),
           with_files fs w)
      | (RunFileNotFound, fs) =>
          (RuntimeError docker_not_found, with_files fs w)
      end
  end.

(** The guidance of lines 289-291. *)
Definition install_guidance : list string :=
  ["Ошибка: для создания PDF необходимо:";
   "  1. Установить Docker и образ: docker pull linuxserver/libreoffice:latest";
   "  2. Или установить библиотеку docx2pdf: pip install docx2pdf"].

(** The recommendations of lines 295-298; the first starts with a line
    feed. *)
Definition recommendations : list string :=
  [String (ascii_of_nat 10) "Рекомендации:";
   "  1. Установите Docker: https://docs.docker.com/get-docker/";
   "  2. Загрузите образ: docker pull linuxserver/libreoffice:latest";
   "  3. Или установите LibreOffice локально и используйте docx2pdf"].

Definition print_all (lines : list string) (w : world) : world :=
  foldl (fun w line => print line w) w lines.

(** The PDF stage of the script, lines 274-299. *)
Definition pdf_bridge (output_file : string) (w : world) : outcome * world :=
  let pdf_file := replace ".docx" ".pdf" output_file in
  match convert_docx_to_pdf_docker output_file (Some pdf_file) w with
  | (Returned _, w) => (Finished, print ("PDF версия создана: " +:+ pdf_file) w)
  | (MoveFailed, w) => (Uncaught OSError, w)
  | (RuntimeError e, w) =>
      let w := print ("Попытка через Docker не удалась: " +:+ e) w in
      let w := print "Пробую альтернативный метод через docx2pdf..." w in
      let w := log Docx2pdfImport w in
      match h_docx2pdf h with
      | None => (SysExit 1, print_all install_guidance w)
      | Some convert =>
          let w := log (Docx2pdfConvert output_file pdf_file) w in
          match convert output_file pdf_file (files w) with
          | (Converted, fs) =>
              (Finished, print ("PDF версия создана: " +:+ pdf_file) (with_files fs w))
          | (ConvertImportError, fs) =>
              (SysExit 1, print_all install_guidance (with_files fs w))
          | (ConvertException e2, fs) =>
              (SysExit 1,
               print_all recommendations
                 (print ("Ошибка при конвертации в PDF: " +:+ e2) (with_files fs w)))
          end
      end
  end.

(** The command line, as [argparse] hands it over: [--input],
    [--output] and [--pdf]. *)
Record arguments : Type := mk_arguments {
  arg_input : string;
  arg_output : string;
  arg_pdf : bool
}.

(** The arguments of a run without options. *)
Definition default_arguments : arguments :=
  {| arg_input := "resume_data.json"; arg_output := "resume.docx"; arg_pdf := false |}.

(** Lines 266-269: the name the document is written under. *)
Definition output_name (a : arguments) : string :=
  if negb (endswith (arg_output a) ".docx")
  then arg_output a +:+ ".docx"
  else arg_output a.

(** The script run as a program, lines 253-299. *)
Definition main (a : arguments) (w : world) : outcome * world :=
  let output_file := output_name a in
  match generate_resume (arg_input a) output_file w with
  | (Finished, w) =>
      if arg_pdf a then pdf_bridge output_file w else (Finished, w)
  | stopped => stopped
  end.

End Program.

(* ===================================================================== *)
(** * The paragraphs the helpers leave in the document *)
(* ===================================================================== *)

(** The text a run created by [add_run] holds. *)
Definition shown (text : value) : value :=
  if truthy text then text else VStr "".

(** What [set_run_font] leaves in a run. [run.font.name = n] fills the
    Latin slots ([w:ascii], [w:hAnsi]); the east-Asian slot is then set
    explicitly. [if color:] holds for every colour triple. *)
Definition font_of (font_name : string) (font_size : Z) (bold italic : bool)
    (color : option (Z * Z * Z)) (r : run) : run :=
  {| r_text := r_text r;
     r_fonts := {| f_ascii := Some font_name; f_hAnsi := Some font_name;
                   f_eastAsia := Some font_name; f_cs := f_cs (r_fonts r) |};
     r_size := Some (Pt font_size);
     r_bold := Some bold;
     r_italic := Some italic;
     r_color := match color with Some c => Some c | None => r_color r end |}.

(** A run after [set_run_font] with the default font name. *)
Definition text_run (text : value) (size : Z) (bold italic : bool)
    (color : option (Z * Z * Z)) : run :=
  font_of "Calibri" size bold italic color (new_run text).

(** The runs of a paragraph created with its text ([add_paragraph(text)],
    [add_heading(text)]) once each has been through [set_run_font]. *)
Definition text_runs (text : value) (size : Z) (bold italic : bool)
    (color : option (Z * Z * Z)) : list run :=
  if truthy text then [text_run text size bold italic color] else [].

Definition heading_par (text : value) (level size : Z) (bold : bool) : paragraph :=
  {| p_style := Heading level; p_runs := text_runs text size bold false None;
     p_alignment := Some LEFT; p_left_indent := None;
     p_space_before := None; p_space_after := None |}.

Definition blank_par : paragraph := new_paragraph Normal [].

(** A one-run paragraph in the default style. *)
Definition line_par (text : value) (size : Z) (bold italic : bool)
    (color : option (Z * Z * Z)) : paragraph :=
  new_paragraph Normal [text_run (shown text) size bold italic color].

(** The paragraph of [add_paragraph_with_style(doc, text, size=11)]. *)
Definition plain_par (text : value) : paragraph :=
  line_par text 11 false false None.

Definition section_header_par (text : value) : paragraph :=
  {| p_style := Normal;
     p_runs := [text_run (shown text) 14 true false (Some (0, 51, 102)%Z)];
     p_alignment := None; p_left_indent := None;
     p_space_before := Some (Pt 12); p_space_after := Some (Pt 6) |}.

Definition bullet_par (text : value) (indent : Z) : paragraph :=
  {| p_style := ListBullet; p_runs := text_runs text 11 false false None;
     p_alignment := None; p_left_indent := Some (Inches_quarters indent);
     p_space_before := None; p_space_after := None |}.

(** A bold key and its value on one line. *)
Definition key_value_par (key : string) (val : value) : paragraph :=
  new_paragraph Normal
    [text_run (VStr (key +:+ ": ")) 11 true false None;
     text_run (shown val) 11 false false None].

(** The document with paragraphs appended to its body. *)
Definition extend (d : document) (ps : list paragraph) : document :=
  set_body (body d ++ ps) d.

Infix "⊕" := extend (at level 50, left associativity).

(* ===================================================================== *)
(** * The blocks, as lists of paragraphs *)
(* ===================================================================== *)

Section Blocks.

Variable repr : value -> string.

(** [o.get(k, default)] on the entries of a dict. *)
Definition field (o : gmap string value) (k : string) (default : value) : value :=
  from_option id default (o !! k).

(** The entry of the contact line for [key]: nothing when the field is
    absent or empty. *)
Definition contact_part (info : gmap string value) (key label : string) : list string :=
  match info !! key with
  | Some v => if truthy v then [label +:+ py_str repr v] else []
  | None => []
  end.

Definition contact_parts (info : gmap string value) : list string :=
  contact_part info "email" "Email: "
  ++ contact_part info "phone" "Телефон: "
  ++ contact_part info "location" "Местоположение: "
  ++ contact_part info "linkedin" "LinkedIn: "
  ++ contact_part info "github" "GitHub: ".

(** The contact line: one paragraph with one run, or nothing. *)
Definition contact_line (line : string) : paragraph :=
  {| p_style := Normal; p_runs := [text_run (VStr line) 10 false false grey];
     p_alignment := Some LEFT; p_left_indent := None;
     p_space_before := None; p_space_after := None |}.

Definition contact_block (info : gmap string value) : list paragraph :=
  match contact_parts info with
  | [] => []
  | parts => [contact_line (join " | " parts)]
  end.

Definition name_heading (info : gmap string value) : paragraph :=
  heading_par (field info "name" (VStr "Имя Фамилия")) 1 20 true.

Definition header_block (info : gmap string value) : list paragraph :=
  [name_heading info] ++ contact_block info ++ [blank_par].

Definition summary_block (summary : value) : list paragraph :=
  [section_header_par (VStr "О себе"); plain_par summary; blank_par].

(** The bold line of an entry: two fields around [" | "]. *)
Definition title_par (left right : value) : paragraph :=
  line_par (VStr (py_str repr left +:+ " | " +:+ py_str repr right)) 12 true false None.

Definition period_pars (o : gmap string value) : list paragraph :=
  let period := field o "period" (VStr "") in
  if truthy period then [line_par period 10 false true grey] else [].

Definition description_pars (o : gmap string value) : list paragraph :=
  match o !! "description" with
  | Some (VList items) => (fun item => bullet_par item 1) <$> items
  | Some v => if truthy v then [plain_par v] else []
  | None => []
  end.

Definition experience_entry_pars (o : gmap string value) : list paragraph :=
  [title_par (field o "position" (VStr "Должность")) (field o "company" (VStr "Компания"))]
  ++ period_pars o ++ description_pars o ++ [blank_par].

Definition experience_block (entries : list (gmap string value)) : list paragraph :=
  section_header_par (VStr "Опыт работы") :: concat (experience_entry_pars <$> entries).

Definition education_entry_pars (o : gmap string value) : list paragraph :=
  [title_par (field o "degree" (VStr "Степень")) (field o "school" (VStr "Учебное заведение"))]
  ++ period_pars o ++ [blank_par].

Definition education_block (entries : list (gmap string value)) : list paragraph :=
  section_header_par (VStr "Образование") :: concat (education_entry_pars <$> entries).

(** The text of the skills paragraph: a list of strings is joined with
    [", "], any other value is passed as it is; a list with an element
    that is not a [str] has no text ([join] raises). *)
Definition skills_text (skills : value) : option value :=
  match skills with
  | VList l => (fun parts => VStr (join ", " parts)) <$> all_str l
  | _ => Some skills
  end.

Definition skills_block (skills_text : value) : list paragraph :=
  [section_header_par (VStr "Навыки"); plain_par skills_text; blank_par].

Definition section_item_par (item : value) : paragraph :=
  match item with
  | VDict o => key_value_par (py_str repr (field o "key" (VStr ""))) (field o "value" (VStr ""))
  | _ => bullet_par (VStr (py_str repr item)) 1
  end.

Definition content_pars (o : gmap string value) : list paragraph :=
  match o !! "content" with
  | Some (VList items) => section_item_par <$> items
  | Some v => [plain_par (VStr (py_str repr v))]
  | None => [plain_par (VStr "")]
  end.

Definition section_pars (o : gmap string value) : list paragraph :=
  [section_header_par (field o "title" (VStr "Раздел"))] ++ content_pars o ++ [blank_par].

Definition additional_block (sections : list (gmap string value)) : list paragraph :=
  concat (section_pars <$> sections).

End Blocks.

(* ===================================================================== *)
(** * Reading a finished document *)
(* ===================================================================== *)

(** The paragraphs that start a block can be told apart by their
    formatting: the name heading is the only paragraph in a heading
    style, the contact line the only left-aligned paragraph in the
    default style, and a section header the only kind with spacing
    around it. Every other paragraph belongs to the block opened
    before it. *)
Inductive mark : Type :=
| NameHeading
| ContactLine
| SectionHeader (title : list value).

Definition mark_of (p : paragraph) : option mark :=
  match p_style p, p_alignment p, p_space_before p with
  | Heading _, _, _ => Some NameHeading
  | Normal, Some LEFT, _ => Some ContactLine
  | Normal, None, Some _ => Some (SectionHeader (r_text <$> p_runs p))
  | _, _, _ => None
  end.

(** The marks of a body, in order. *)
Definition outline (ps : list paragraph) : list mark := omap mark_of ps.

(** The outline of what [build] returns; an exception has none. *)
Definition outline_of (r : result document) : option (list mark) :=
  match r with
  | Ok d => Some (outline (body d))
  | Raise _ => None
  end.







(* ===================================================================== *)
(** * Properties of records, documents and computations *)
(* ===================================================================== *)

(** The top-level fields of a record. *)
Definition top_level_fields : list string :=
  ["personal_info"; "summary"; "experience"; "education"; "skills";
   "additional_sections"].


(** The empty values a top-level field can hold. *)
Definition empty_values : list (string * value) :=
  [("summary", VStr ""); ("skills", VStr "");
   ("experience", VList []); ("education", VList []); ("skills", VList []);
   ("additional_sections", VList [])].

(** The part of the assembler that renders a top-level field. *)
Definition render_block (repr : value -> string) (key : string) : value -> M unit :=
  if String.eqb key "summary" then render_summary
  else if String.eqb key "experience" then render_experience repr
  else if String.eqb key "education" then render_education repr
  else if String.eqb key "skills" then render_skills
  else if String.eqb key "additional_sections" then render_additional repr
  else render_header repr.



(** [needle in hay]. *)
Fixpoint contains (needle hay : string) : bool :=
  String.prefix needle hay
  || match hay with
     | EmptyString => false
     | String _ rest => contains needle rest
     end.

(** ** The document of a record, block by block *)

(** Exceptions go through pure computations as through the assembler. *)
#[global] Instance result_ret : MRet result := fun A a => Ok a.

#[global] Instance result_bind : MBind result := fun A B f r =>
  match r with
  | Ok a => f a
  | Raise e => Raise e
  end.

#[global] Instance result_fmap : FMap result := fun A B f r =>
  match r with
  | Ok a => Ok (f a)
  | Raise e => Raise e
  end.

Definition succeeds {A} (r : result A) : bool :=
  match r with
  | Ok _ => true
  | Raise _ => false
  end.

(** The elements of a list when every one is a dict. *)
Fixpoint all_dicts (l : list value) : option (list (gmap string value)) :=
  match l with
  | [] => Some []
  | VDict o :: rest => cons o <$> all_dicts rest
  | _ :: _ => None
  end.

(** The entries a loop of the assembler goes through for the value of a
    field. An empty value (or an absent field, the value being [None]
    then) has none. A list gives its elements when they are all dicts;
    [.get] fails on the first that is not. A string is gone through by
    character and a dict by key, and [.get] fails on the first one. Any
    other value cannot be iterated. *)
Definition entries_of (v : value) : result (list (gmap string value)) :=
  if truthy v
  then match v with
       | VList l => from_option Ok (Raise AttributeError) (all_dicts l)
       | VStr _ | VDict _ => Raise AttributeError
       | VNone | VBool _ | VInt _ | VFloat _ => Raise TypeError
       end
  else Ok [].

Section Layout.

Variable repr : value -> string.

Definition summary_of (o : gmap string value) : list paragraph :=
  let s := field o "summary" VNone in
  if truthy s then summary_block s else [].

Definition experience_of (entries : list (gmap string value)) : list paragraph :=
  match entries with
  | [] => []
  | _ :: _ => experience_block repr entries
  end.

Definition education_of (entries : list (gmap string value)) : list paragraph :=
  match entries with
  | [] => []
  | _ :: _ => education_block repr entries
  end.

Definition skills_of (o : gmap string value) : result (list paragraph) :=
  let s := field o "skills" VNone in
  if truthy s
  then from_option (fun text => Ok (skills_block text)) (Raise TypeError) (skills_text s)
  else Ok [].

(** The body of the document of a record: the header, then the block of
    each field that is not empty, in the order of the source; or the
    exception that ends the run, the first one in that order. *)
Definition layout (data : value) : result (list paragraph) :=
  match data with
  | VDict o =>
      match field o "personal_info" (VDict ∅) with
      | VDict info =>
          exps ← entries_of (field o "experience" VNone);
          edus ← entries_of (field o "education" VNone);
          skills ← skills_of o;
          sections ← entries_of (field o "additional_sections" VNone);
          Ok (header_block repr info
              ++ summary_of o
              ++ experience_of exps
              ++ education_of edus
              ++ skills
              ++ additional_block repr sections)
      | _ => Raise AttributeError
      end
  | _ => Raise AttributeError
  end.

End Layout.

(** The value of a field can be looped over: it is empty, or a list of
    dicts. *)
Definition loopable (v : value) : bool :=
  negb (truthy v)
  || match v with
     | VList l => forallb is_dict l
     | _ => false
     end.

(** The value of [skills] can be rendered: it is empty, or not a list,
    or a list of strings. *)
Definition joinable (v : value) : bool :=
  negb (truthy v)
  || match v with
     | VList l => forallb (fun x => match x with VStr _ => true | _ => false end) l
     | _ => true
     end.

(** The records the assembler accepts. *)
Definition well_formed (data : value) : bool :=
  match data with
  | VDict o =>
      is_dict (field o "personal_info" (VDict ∅))
      && loopable (field o "experience" VNone)
      && loopable (field o "education" VNone)
      && joinable (field o "skills" VNone)
      && loopable (field o "additional_sections" VNone)
  | _ => false
  end.

(** The document with the base font the assembler sets first. *)
Definition with_base_font (d : document) : document :=
  {| body := body d; normal_font_name := Some "Calibri";
     normal_font_size := Some (Pt 11) |}.

(** Lines 217-227: the image and the command line of the container. *)
Definition docker_command (h : host) (docx_file : string) : list string :=
  ["docker"; "run"; "--rm";
   "-v"; h_dirname h (h_abspath h docx_file) +:+ ":/convert";
   default "linuxserver/libreoffice:latest" (h_getenv h "LIBREOFFICE_DOCKER_IMAGE");
   "libreoffice"; "--headless"; "--convert-to"; "pdf";
   "--outdir"; "/convert";
   "/convert/" +:+ h_basename h (h_abspath h docx_file)].

(** Line 239: where the container leaves the PDF. *)
Definition generated_pdf (h : host) (docx_file : string) : string :=
  h_join h (h_dirname h (h_abspath h docx_file))
    (replace ".docx" ".pdf" (h_basename h (h_abspath h docx_file))).



(* ===================================================================== *)
(** * Sample records and machines *)
(* ===================================================================== *)

(** A [repr] for records that hold strings only: it is never called. *)
Definition no_repr : value -> string := fun _ => "".


(** The parts of a fully populated record with one additional section. *)
Definition ann_info : gmap string value :=
  list_to_map [("name", VStr "Ann Lee"); ("email", VStr "ann@example.org");
               ("github", VStr "annlee")].

Definition ann_experience : list (gmap string value) :=
  [list_to_map [("position", VStr "Developer"); ("company", VStr "ACME");
                ("period", VStr "2020-2024");
                ("description", VList [VStr "Built things"; VStr "Fixed things"])]].

Definition ann_education : list (gmap string value) :=
  [list_to_map [("degree", VStr "BSc"); ("school", VStr "MIT")]].

Definition ann_sections : list (gmap string value) :=
  [list_to_map [("title", VStr "Languages"); ("content", VStr "English")]].

Definition ann_record : gmap string value :=
  list_to_map
    [("personal_info", VDict ann_info);
     ("summary", VStr "Engineer");
     ("experience", VList (VDict <$> ann_experience));
     ("education", VList (VDict <$> ann_education));
     ("skills", VList [VStr "Rocq"; VStr "Python"]);
     ("additional_sections", VList (VDict <$> ann_sections))].




(** A record whose [summary] is the empty string and whose [experience]
    is the empty list. *)
Definition record_with_empty_fields : gmap string value :=
  list_to_map
    [("personal_info", VDict ann_info);
     ("summary", VStr "");
     ("experience", VList []);
     ("skills", VList [VStr "Rocq"])].

(** A machine with neither Docker nor docx2pdf, whose working directory
    is [/work] and holds no file; [json.load] accepts the text [{}]
    only. *)
Definition bare_host : host :=
  {| h_repr := no_repr;
     h_json_load := fun text =>
       if String.eqb text "{}" then Loaded (VDict ∅)
       else JSONDecodeError "Expecting value: line 1 column 1 (char 0)";
     h_docx_bytes := fun _ => "PK";
     h_can_save := fun _ _ => true;
     h_abspath := fun path => "/work/" +:+ path;
     h_dirname := fun _ => "/work";
     h_basename := fun path => path;
     h_join := fun dir name => dir +:+ "/" +:+ name;
     h_which := fun _ => None;
     h_getenv := fun _ => None;
     h_run := fun _ fs => (RunFileNotFound, fs);
     h_rename := fun _ _ _ => RenameFileNotFound;
     h_docx2pdf := None |}.

Definition empty_world : world := {| files := ∅; stdout := []; events := [] |}.

(** The same directory with an input file. *)
Definition world_with_input : world :=
  {| files := {[ "/work/resume_data.json" := "{}" ]}; stdout := []; events := [] |}.




(** The directory of [bare_host] with an input file that is not JSON. *)
Definition world_with_broken_input : world :=
  {| files := {[ "/work/resume_data.json" := "{" ]}; stdout := []; events := [] |}.



(** A machine with Docker whose container ends with status zero and
    writes nothing, and the directory after the document was written. *)
Definition idle_host : host :=
  {| h_repr := no_repr;
     h_json_load := fun _ => Loaded (VDict ∅);
     h_docx_bytes := fun _ => "PK";
     h_can_save := fun _ _ => true;
     h_abspath := fun path => if String.prefix "/" path then path else "/work/" +:+ path;
     h_dirname := fun _ => "/work";
     h_basename := fun _ => "resume.docx";
     h_join := fun dir name => dir +:+ "/" +:+ name;
     h_which := fun _ => Some "/usr/bin/docker";
     h_getenv := fun _ => None;
     h_run := fun _ fs => (Completed, fs);
     h_rename := fun _ _ _ => RenameOSError;
     h_docx2pdf := None |}.

Definition world_after_generation : world :=
  {| files := {[ "/work/resume.docx" := "PK" ]};
     stdout := ["Резюме успешно создано: resume.docx"]; events := [] |}.

(* ===================================================================== *)
(** * Reasoning about the store *)
(* ===================================================================== *)

Lemma extend_nil d : d ⊕ [] = d.
Proof. destruct d; unfold extend, set_body; simpl. by rewrite app_nil_r. Qed.

Lemma extend_extend d ps qs : d ⊕ ps ⊕ qs = d ⊕ (ps ++ qs).
Proof. unfold extend, set_body; simpl. by rewrite app_assoc. Qed.

Lemma lookup_last_added {A} (l : list A) (x : A) : (l ++ [x]) !! length l = Some x.
Proof. by rewrite list_lookup_middle. Qed.

Lemma alter_last_added {A} (f : A -> A) (l : list A) (x : A) :
  alter f (length l) (l ++ [x]) = l ++ [f x].
Proof.
  rewrite alter_app_r_alt; [| lia].
  by rewrite Nat.sub_diag.
Qed.

(** Running a bind whose first action succeeds. *)
Lemma bind_ok {A B} (m : M A) (k : A -> M B) d a d' :
  m d = Ok (a, d') -> (m ≫= k) d = k a d'.
Proof. intros H. unfold mbind, M_bind. by rewrite H. Qed.

Lemma bind_assoc {A B C} (m : M A) (f : A -> M B) (g : B -> M C) d :
  ((m ≫= f) ≫= g) d = (m ≫= fun a => f a ≫= g) d.
Proof. unfold mbind, M_bind. by destruct (m d) as [[a d']|e]. Qed.

Lemma bind_lift_ok {A B} (a : A) (k : A -> M B) d : (lift (Ok a) ≫= k) d = k a d.
Proof. reflexivity. Qed.

Lemma bind_ret {A B} (a : A) (k : A -> M B) d : (mret a ≫= k) d = k a d.
Proof. reflexivity. Qed.

Section Store.
Context (d : document) (p : paragraph).

Lemma add_run_last text :
  para_add_run (length (body d)) text (d ⊕ [p])
  = Ok ((length (body d), length (p_runs p)),
        d ⊕ [set_p_runs (p_runs p ++ [new_run (shown text)]) p]).
Proof.
  unfold para_add_run, extend, set_body; simpl.
  by rewrite lookup_last_added, alter_last_added.
Qed.

Lemma runs_last :
  para_runs (length (body d)) (d ⊕ [p])
  = Ok (pair (length (body d)) <$> seq 0 (length (p_runs p)), d ⊕ [p]).
Proof.
  unfold para_runs, extend, set_body; simpl.
  by rewrite lookup_last_added.
Qed.

Lemma update_paragraph_last f :
  update_paragraph (length (body d)) f (d ⊕ [p]) = Ok (tt, d ⊕ [f p]).
Proof.
  unfold update_paragraph, modify, extend, set_body; simpl.
  by rewrite alter_last_added.
Qed.

Lemma update_run_last i f :
  update_run (length (body d), i) f (d ⊕ [p])
  = Ok (tt, d ⊕ [set_p_runs (alter f i (p_runs p)) p]).
Proof. unfold update_run. simpl. by rewrite update_paragraph_last. Qed.

End Store.

(** [set_run_font] on a run of the last paragraph: the six assignments
    amount to [font_of]. *)
Lemma set_run_font_last d p i name size bold italic color :
  set_run_font (length (body d), i) name size bold italic color (d ⊕ [p])
  = Ok (tt, d ⊕ [set_p_runs (alter (font_of name size bold italic color) i (p_runs p)) p]).
Proof.
  unfold set_run_font.
  repeat (erewrite bind_ok; [| apply update_run_last]).
  destruct color as [c|].
  - repeat (erewrite bind_ok; [| apply update_run_last]).
    rewrite update_run_last. simpl.
    by rewrite !list_alter_alter_eq.
  - rewrite bind_ret, update_run_last. simpl.
    by rewrite !list_alter_alter_eq.
Qed.

Lemma doc_add_paragraph_spec text st d :
  doc_add_paragraph text st d
  = Ok (length (body d),
        d ⊕ [new_paragraph st (if truthy text then [new_run text] else [])]).
Proof. reflexivity. Qed.

(** Runs the first statement of the computation on the left of the goal:
    store primitives act on the paragraph added last. *)
Ltac exec_prim :=
  lazymatch goal with
  | |- (mbind _ (mbind _ _)) _ = _ => rewrite bind_assoc
  | |- (mbind _ (mret _)) _ = _ => rewrite bind_ret
  | |- (mbind _ (lift (Ok _))) _ = _ => rewrite bind_lift_ok
  | |- (mbind _ (doc_add_paragraph _ _)) _ = _ =>
      erewrite bind_ok; [| apply doc_add_paragraph_spec]
  | |- (mbind _ (para_add_run _ _)) _ = _ =>
      erewrite bind_ok; [| apply add_run_last]
  | |- (mbind _ (para_runs _)) _ = _ =>
      erewrite bind_ok; [| apply runs_last]
  | |- (mbind _ (update_paragraph _ _)) _ = _ =>
      erewrite bind_ok; [| apply update_paragraph_last]
  | |- (mbind _ (set_run_font _ _ _ _ _ _)) _ = _ =>
      erewrite bind_ok; [| apply set_run_font_last]
  end.

Lemma add_heading_spec text level size bold d :
  add_heading text level size bold d
  = Ok (length (body d), d ⊕ [heading_par text level size bold]).
Proof.
  unfold add_heading, doc_add_heading, set_alignment, heading_par, text_runs.
  do 3 exec_prim. simpl.
  destruct (truthy text); simpl.
  - do 3 exec_prim. reflexivity.
  - reflexivity.
Qed.

Lemma add_paragraph_with_style_spec text size bold color d :
  add_paragraph_with_style text size bold color d
  = Ok (length (body d), d ⊕ [line_par text size bold false color]).
Proof.
  unfold add_paragraph_with_style.
  do 3 exec_prim. reflexivity.
Qed.

Lemma add_section_header_spec text d :
  add_section_header text d = Ok (length (body d), d ⊕ [section_header_par text]).
Proof.
  unfold add_section_header, set_space_before, set_space_after.
  do 5 exec_prim. reflexivity.
Qed.

Lemma add_bullet_point_spec text indent d :
  add_bullet_point text indent d = Ok (length (body d), d ⊕ [bullet_par text indent]).
Proof.
  unfold add_bullet_point, set_left_indent, bullet_par, text_runs.
  do 3 exec_prim. simpl.
  destruct (truthy text); simpl.
  - do 3 exec_prim. reflexivity.
  - reflexivity.
Qed.

(** The inline idiom [para = doc.add_paragraph(); run = para.add_run(text);
    set_run_font(run, ...)], followed by the rest of the block. *)
Lemma inline_line_spec {B} text size bold italic color (k : M B) d :
  (para ← doc_add_paragraph (VStr "") Normal;
   r ← para_add_run para text;
   set_run_font r "Calibri" size bold italic color ;; k) d
  = k (d ⊕ [line_par text size bold italic color]).
Proof. do 3 exec_prim. reflexivity. Qed.

(** The same idiom as the body of a conditional. *)
Lemma inline_line_nested {B} text size bold italic color (k : unit -> M B) d :
  (para ← doc_add_paragraph (VStr "") Normal;
   (r ← para_add_run para text;
    set_run_font r "Calibri" size bold italic color) ≫= k) d
  = k tt (d ⊕ [line_par text size bold italic color]).
Proof. do 4 exec_prim. reflexivity. Qed.

(** [doc.add_paragraph()], followed by the rest of the block. *)
Lemma blank_line_spec {B} (k : M B) d :
  (doc_add_paragraph (VStr "") Normal ;; k) d = k (d ⊕ [blank_par]).
Proof. reflexivity. Qed.

(* ===================================================================== *)
(** * What each block of the assembler appends *)
(* ===================================================================== *)

(** Runs the first statement of a block. *)
Ltac exec :=
  lazymatch goal with
  | |- (mbind _ (doc_add_paragraph (VStr "") Normal)) _ = _ =>
      first [ rewrite inline_line_spec | rewrite inline_line_nested
            | rewrite blank_line_spec | exec_prim ]
  | |- (mbind _ (add_section_header _)) _ = _ =>
      erewrite bind_ok; [| apply add_section_header_spec]
  | |- (mbind _ (add_paragraph_with_style _ _ _ _)) _ = _ =>
      erewrite bind_ok; [| apply add_paragraph_with_style_spec]
  | |- (mbind _ (add_bullet_point _ _)) _ = _ =>
      erewrite bind_ok; [| apply add_bullet_point_spec]
  | |- (mbind _ (add_heading _ _ _ _)) _ = _ =>
      erewrite bind_ok; [| apply add_heading_spec]
  | |- _ => exec_prim
  end.

Lemma shown_str s : shown (VStr s) = VStr s.
Proof. by destruct s. Qed.

(** A loop whose body appends [g x] for each element appends them all,
    in order. *)
Lemma for_each_appends {A} (f : A -> M unit) (g : A -> list paragraph) xs :
  (forall x d, f x d = Ok (tt, d ⊕ g x)) ->
  forall d, for_each xs f d = Ok (tt, d ⊕ concat (g <$> xs)).
Proof.
  intros Hf. induction xs as [|x xs IH]; intros d; simpl.
  - by rewrite extend_nil.
  - erewrite bind_ok; [| apply Hf].
    by rewrite IH, extend_extend.
Qed.

Lemma join_nonempty sep p ps : p <> "" -> join sep (p :: ps) <> "".
Proof. intros Hp. destruct p; [done |]. by destruct ps. Qed.

Section BlockSpecs.

Variable repr : value -> string.

Lemma contact_entry_spec info key label acc d :
  contact_entry repr (VDict info) key label acc d
  = Ok (acc ++ contact_part repr info key label, d).
Proof.
  unfold contact_entry, contact_part. cbn [py_get py_item]. exec.
  destruct (info !! key) as [v|]; simpl.
  - destruct (truthy v); [reflexivity |]. by rewrite app_nil_r.
  - by rewrite app_nil_r.
Qed.

Lemma contact_part_nonempty info key label :
  label <> "" -> Forall (fun s => s <> "") (contact_part repr info key label).
Proof.
  intros Hl. unfold contact_part.
  destruct (info !! key) as [v|]; [| constructor].
  destruct (truthy v); constructor; [| constructor].
  by destruct label.
Qed.

Lemma contact_parts_nonempty info : Forall (fun s => s <> "") (contact_parts repr info).
Proof.
  unfold contact_parts.
  repeat (apply Forall_app; split); by apply contact_part_nonempty.
Qed.

Lemma contact_line_truthy part parts :
  Forall (fun s => s <> "") (part :: parts) ->
  truthy (VStr (join " | " (part :: parts))) = true.
Proof.
  intros Hne. inversion Hne as [|? ? Hp _]; subst.
  pose proof (join_nonempty " | " part parts Hp) as Hj.
  cbn [truthy]. by destruct (join " | " (part :: parts)).
Qed.

(** Lines 90-114 on a record whose [personal_info] is the dict [info]
    (or is absent, [info] being empty then). *)
Lemma render_header_spec o info d :
  field o "personal_info" (VDict ∅) = VDict info ->
  render_header repr (VDict o) d = Ok (tt, d ⊕ header_block repr info).
Proof.
  intros Hinfo. unfold render_header, header_block, contact_block, name_heading.
  cbn [py_get]. fold (field o "personal_info" (VDict ∅)). rewrite Hinfo.
  exec. cbn [py_get]. fold (field info "name" (VStr "Имя Фамилия")).
  do 3 exec.
  do 5 (erewrite bind_ok; [| apply contact_entry_spec]).
  rewrite !app_nil_l, <- !app_assoc. fold (contact_parts repr info).
  pose proof (contact_parts_nonempty info) as Hne.
  destruct (contact_parts repr info) as [|part parts].
  - do 2 exec. unfold mret, M_ret. by rewrite extend_extend.
  - pose proof (contact_line_truthy _ _ Hne) as Ht.
    unfold set_alignment. repeat exec. rewrite Ht.
    cbn [p_runs new_paragraph length seq fmap list_fmap for_each].
    repeat exec. unfold mret, M_ret.
    rewrite !extend_extend. reflexivity.
Qed.

Lemma render_summary_present o v d :
  o !! "summary" = Some v -> truthy v = true ->
  render_summary (VDict o) d = Ok (tt, d ⊕ summary_block v).
Proof.
  intros Hv Ht. unfold render_summary, summary_block, plain_par.
  cbn [py_get py_item]. rewrite Hv. cbn [from_option id]. exec. rewrite Ht.
  repeat exec. unfold mret, M_ret. by rewrite !extend_extend.
Qed.

Lemma render_summary_skipped o d :
  truthy (field o "summary" VNone) = false ->
  render_summary (VDict o) d = Ok (tt, d).
Proof.
  intros Ht. unfold render_summary. cbn [py_get].
  fold (field o "summary" VNone). exec. by rewrite Ht.
Qed.

(** The optional period line of an entry, followed by the rest. *)
Lemma period_spec {B} o (k : M B) d :
  ((if truthy (field o "period" (VStr ""))
    then para ← doc_add_paragraph (VStr "") Normal;
         r ← para_add_run para (field o "period" (VStr ""));
         set_run_font r "Calibri" 10 false true grey
    else mret tt) ;; k) d
  = k (d ⊕ period_pars o).
Proof.
  unfold period_pars. cbn zeta.
  destruct (truthy (field o "period" (VStr ""))).
  - by repeat exec.
  - exec. by rewrite extend_nil.
Qed.

Lemma bullets_spec (items : list value) d :
  for_each items (fun item => add_bullet_point item 1 ;; mret tt) d
  = Ok (tt, d ⊕ ((fun item => bullet_par item 1) <$> items)).
Proof.
  rewrite (for_each_appends _ (fun item => [bullet_par item 1])).
  - do 3 f_equal. induction items as [|x xs IH]; [done |].
    cbn [fmap list_fmap concat app]. by f_equal.
  - intros x d'. by exec.
Qed.

(** The description of an entry (lines 140-145), followed by the rest. *)
Lemma description_spec {B} o (k : M B) d :
  (description ← lift (py_get (VDict o) "description" VNone);
   (if truthy description
    then x ← lift (py_item (VDict o) "description");
         if is_list x
         then x ← lift (py_item (VDict o) "description");
              items ← lift (py_iter x);
              for_each items (fun item => add_bullet_point item 1 ;; mret tt)
         else x ← lift (py_item (VDict o) "description");
              add_paragraph_with_style x 11 false None ;;
              mret tt
    else mret tt) ;; k) d
  = k (d ⊕ description_pars o).
Proof.
  unfold description_pars. cbn [py_get py_item]. exec.
  destruct (o !! "description") as [desc|]; cbn [from_option id].
  - destruct (truthy desc) eqn:Ht.
    + destruct desc; try discriminate Ht;
        repeat (first [ exec | progress cbn [is_list py_iter] ]);
        try (unfold plain_par; reflexivity).
      erewrite bind_ok; [| apply bullets_spec]. reflexivity.
    + exec. destruct desc as [| | | | |l|]; try rewrite Ht; try (by rewrite extend_nil).
      destruct l; [by rewrite extend_nil | discriminate Ht].
  - cbn [truthy]. exec. by rewrite extend_nil.
Qed.

(** Lines 126-147 on an entry that is a dict. *)
Lemma render_experience_entry_spec o d :
  render_experience_entry repr (VDict o) d
  = Ok (tt, d ⊕ experience_entry_pars repr o).
Proof.
  unfold render_experience_entry, experience_entry_pars, title_par.
  cbn [py_get]. fold (field o "position" (VStr "Должность")).
  fold (field o "company" (VStr "Компания")). fold (field o "period" (VStr "")).
  do 3 exec. cbn zeta. exec.
  rewrite period_spec, description_spec. exec.
  unfold mret, M_ret. by rewrite !extend_extend.
Qed.

(** Lines 153-166 on an entry that is a dict. *)
Lemma render_education_entry_spec o d :
  render_education_entry repr (VDict o) d
  = Ok (tt, d ⊕ education_entry_pars repr o).
Proof.
  unfold render_education_entry, education_entry_pars, title_par.
  cbn [py_get]. fold (field o "degree" (VStr "Степень")).
  fold (field o "school" (VStr "Учебное заведение")). fold (field o "period" (VStr "")).
  do 3 exec. cbn zeta. exec.
  rewrite period_spec. exec.
  unfold mret, M_ret. by rewrite !extend_extend.
Qed.




Lemma render_experience_skipped o d :
  truthy (field o "experience" VNone) = false ->
  render_experience repr (VDict o) d = Ok (tt, d).
Proof.
  intros Ht. unfold render_experience. cbn [py_get].
  fold (field o "experience" VNone). exec. by rewrite Ht.
Qed.


Lemma render_education_skipped o d :
  truthy (field o "education" VNone) = false ->
  render_education repr (VDict o) d = Ok (tt, d).
Proof.
  intros Ht. unfold render_education. cbn [py_get].
  fold (field o "education" VNone). exec. by rewrite Ht.
Qed.

(** Lines 168-173 when [skills] is not empty and can be rendered. *)
Lemma render_skills_present o v text d :
  o !! "skills" = Some v -> truthy v = true -> skills_text v = Some text ->
  render_skills (VDict o) d = Ok (tt, d ⊕ skills_block text).
Proof.
  intros Hv Ht Htext. unfold render_skills, skills_block, plain_par.
  cbn [py_get py_item]. rewrite Hv. cbn [from_option id]. exec. rewrite Ht.
  do 2 exec. unfold skills_text in Htext.
  destruct v as [| | | | |l|]; cbn [is_list]; repeat exec;
    try (injection Htext as <-; unfold mret, M_ret; by rewrite !extend_extend).
  cbn [py_join]. destruct (all_str l) as [parts|]; [| discriminate Htext].
  injection Htext as <-. repeat exec.
  unfold mret, M_ret. by rewrite !extend_extend.
Qed.

Lemma render_skills_skipped o d :
  truthy (field o "skills" VNone) = false ->
  render_skills (VDict o) d = Ok (tt, d).
Proof.
  intros Ht. unfold render_skills. cbn [py_get].
  fold (field o "skills" VNone). exec. by rewrite Ht.
Qed.

(** Lines 181-191 on any item. *)
Lemma render_section_item_spec item d :
  render_section_item repr item d = Ok (tt, d ⊕ [section_item_par repr item]).
Proof.
  unfold render_section_item, section_item_par.
  destruct item as [| | | | | |o]; cbn [is_dict]; try by repeat exec.
  cbn [py_get]. unfold key_value_par, field. repeat exec.
  rewrite set_run_font_last. cbn. by rewrite shown_str.
Qed.

Lemma section_items_spec (items : list value) d :
  for_each items (render_section_item repr) d
  = Ok (tt, d ⊕ (section_item_par repr <$> items)).
Proof.
  rewrite (for_each_appends _ (fun item => [section_item_par repr item])).
  - do 3 f_equal. induction items as [|x xs IH]; [done |].
    cbn [fmap list_fmap concat app]. by f_equal.
  - apply render_section_item_spec.
Qed.

(** Lines 178-194 on a section that is a dict. *)
Lemma render_section_spec o d :
  render_section repr (VDict o) d = Ok (tt, d ⊕ section_pars repr o).
Proof.
  unfold render_section, section_pars, content_pars.
  cbn [py_get py_item]. fold (field o "title" (VStr "Раздел")). do 3 exec.
  destruct (o !! "content") as [content|]; cbn [from_option id].
  - destruct content as [| | | | |items|]; cbn [is_list py_iter]; repeat exec.
    all: try (unfold mret, M_ret, plain_par; by rewrite !extend_extend).
    cbn [py_iter]. exec.
    erewrite bind_ok; [| apply section_items_spec].
    exec. unfold mret, M_ret. by rewrite !extend_extend.
  - cbn [is_list]. repeat exec.
    unfold mret, M_ret, plain_par. by rewrite !extend_extend.
Qed.


Lemma render_additional_skipped o d :
  truthy (field o "additional_sections" VNone) = false ->
  render_additional repr (VDict o) d = Ok (tt, d).
Proof.
  intros Ht. unfold render_additional. cbn [py_get].
  fold (field o "additional_sections" VNone). exec. by rewrite Ht.
Qed.

End BlockSpecs.

(* ===================================================================== *)
(** * The outline of the blocks *)
(* ===================================================================== *)




Section Outlines.

Variable repr : value -> string.






End Outlines.

(* ===================================================================== *)
(** * The assembled document *)
(* ===================================================================== *)

Section Assembled.

Variable repr : value -> string.




End Assembled.





(* ===================================================================== *)
(** * Experience entries *)
(* ===================================================================== *)








(* ===================================================================== *)
(** * Skills and additional sections *)
(* ===================================================================== *)





(** The string functions on the names the script handles. *)
Example replace_every_occurrence :
  replace ".docx" ".pdf" "resume.docx" = "resume.pdf"
  /\ replace ".docx" ".pdf" "cv.docx/resume.docx" = "cv.pdf/resume.pdf".
Proof. split; reflexivity. Qed.

Example endswith_is_case_sensitive :
  endswith "resume.docx" ".docx" = true
  /\ endswith "resume" ".docx" = false
  /\ endswith "resume.DOCX" ".docx" = false.
Proof. repeat split; reflexivity. Qed.

Example code_points_of_text : code_points "aИb" = ["a"; "И"; "b"].
Proof. reflexivity. Qed.

(* ===================================================================== *)
(** * The contact line *)
(* ===================================================================== *)



(* ===================================================================== *)
(** * Empty fields *)
(* ===================================================================== *)

Lemma bind_ext {A B} (m : M A) (k1 k2 : A -> M B) d :
  (forall a d', k1 a d' = k2 a d') -> (m ≫= k1) d = (m ≫= k2) d.
Proof. intros H. unfold mbind, M_bind. destruct (m d) as [[a d']|e]; [apply H | done]. Qed.

Lemma bind_cong {A B} (m1 m2 : M A) (k : A -> M B) d :
  m1 d = m2 d -> (m1 ≫= k) d = (m2 ≫= k) d.
Proof. intros H. unfold mbind, M_bind. by rewrite H. Qed.

Section EmptyFields.

Variable repr : value -> string.

(** Each block reads its own field only. *)
Lemma render_header_delete o k :
  k <> "personal_info" ->
  render_header repr (VDict (delete k o)) = render_header repr (VDict o).
Proof.
  intros. unfold render_header. cbn [py_get py_item].
  by rewrite !lookup_delete_ne by done.
Qed.

Lemma render_summary_delete o k :
  k <> "summary" -> render_summary (VDict (delete k o)) = render_summary (VDict o).
Proof.
  intros. unfold render_summary. cbn [py_get py_item].
  by rewrite !lookup_delete_ne by done.
Qed.

Lemma render_experience_delete o k :
  k <> "experience" ->
  render_experience repr (VDict (delete k o)) = render_experience repr (VDict o).
Proof.
  intros. unfold render_experience. cbn [py_get py_item].
  by rewrite !lookup_delete_ne by done.
Qed.

Lemma render_education_delete o k :
  k <> "education" ->
  render_education repr (VDict (delete k o)) = render_education repr (VDict o).
Proof.
  intros. unfold render_education. cbn [py_get py_item].
  by rewrite !lookup_delete_ne by done.
Qed.

Lemma render_skills_delete o k :
  k <> "skills" -> render_skills (VDict (delete k o)) = render_skills (VDict o).
Proof.
  intros. unfold render_skills. cbn [py_get py_item].
  by rewrite !lookup_delete_ne by done.
Qed.

Lemma render_additional_delete o k :
  k <> "additional_sections" ->
  render_additional repr (VDict (delete k o)) = render_additional repr (VDict o).
Proof.
  intros. unfold render_additional. cbn [py_get py_item].
  by rewrite !lookup_delete_ne by done.
Qed.

Lemma field_empty o key v :
  (key, v) ∈ empty_values -> o !! key = Some v -> truthy (field o key VNone) = false.
Proof.
  intros Hin Hv. unfold field. rewrite Hv.
  unfold empty_values in Hin. set_unfold.
  destruct Hin as [?|[?|[?|[?|[?|[?|[]]]]]]]; by simplify_eq.
Qed.

Lemma field_deleted o key : truthy (field (delete key o) key VNone) = false.
Proof. unfold field. by rewrite lookup_delete_eq. Qed.

(** The block of a field that is empty or absent appends nothing. *)
Lemma render_block_skipped o key :
  key ∈ empty_values.*1 -> truthy (field o key VNone) = false ->
  forall d, render_block repr key (VDict o) d = Ok (tt, d).
Proof.
  intros Hin Ht d. unfold empty_values in Hin. cbn in Hin. set_unfold.
  destruct Hin as [->|[->|[->|[->|[->|[->|[]]]]]]]; cbn.
  - by apply render_summary_skipped.
  - by apply render_skills_skipped.
  - by apply render_experience_skipped.
  - by apply render_education_skipped.
  - by apply render_skills_skipped.
  - by apply render_additional_skipped.
Qed.

End EmptyFields.

(** C10: a top-level field that is present but empty (an empty string
    for [summary] or [skills], an empty list for [experience],
    [education], [skills] or [additional_sections]) is treated as an
    absent one: its block appends nothing, not even the section header,
    and the document is the one built from the record without the
    field. *)
Theorem empty_field_is_absent repr o key v :
  (key, v) ∈ empty_values -> o !! key = Some v ->
  (forall d, render_block repr key (VDict o) d = Ok (tt, d))
  /\ (forall d, assemble repr (VDict o) d = assemble repr (VDict (delete key o)) d)
  /\ build repr (VDict o) = build repr (VDict (delete key o)).
Proof.
  intros Hin Hv.
  pose proof (field_empty o key v Hin Hv) as Hempty.
  pose proof (field_deleted o key) as Hdel.
  assert (key ∈ empty_values.*1) as Hkey.
  { apply list_elem_of_fmap. by exists (key, v). }
  assert (forall d, assemble repr (VDict o) d = assemble repr (VDict (delete key o)) d)
    as Hsame.
  { intros d. unfold assemble.
    unfold empty_values in Hkey. cbn in Hkey. set_unfold.
    destruct Hkey as [->|[->|[->|[->|[->|[->|[]]]]]]];
      rewrite ?render_header_delete, ?render_summary_delete, ?render_experience_delete,
        ?render_education_delete, ?render_skills_delete, ?render_additional_delete
        by done;
      repeat (apply bind_ext; intros ? ?);
      try apply bind_cong;
      rewrite ?render_summary_skipped, ?(render_experience_skipped repr),
        ?(render_education_skipped repr), ?render_skills_skipped,
        ?(render_additional_skipped repr) by done;
      reflexivity. }
  split; [| split].
  - by apply render_block_skipped.
  - exact Hsame.
  - unfold build. by rewrite Hsame.
Qed.

(** C10, witness: the empty [summary] of [record_with_empty_fields]. *)
Lemma empty_field_is_absent_witness :
  ("summary", VStr "") ∈ empty_values
  /\ record_with_empty_fields !! "summary" = Some (VStr "")
  /\ build no_repr (VDict record_with_empty_fields)
     = build no_repr (VDict (delete "summary" record_with_empty_fields))
  /\ outline_of (build no_repr (VDict record_with_empty_fields))
     = Some [NameHeading; ContactLine; SectionHeader [VStr "Навыки"]].
Proof.
  assert (("summary", VStr "") ∈ empty_values) as Hin by (apply list_elem_of_here).
  split; [exact Hin |]. split; [reflexivity |]. split.
  - exact (proj2 (proj2 (empty_field_is_absent no_repr record_with_empty_fields
                           "summary" (VStr "") Hin eq_refl))).
  - vm_compute. reflexivity.
Defined.

(* ===================================================================== *)
(** * Fonts *)
(* ===================================================================== *)





















Section Fonts.

(* The statements of a block are matched as they are written. *)
Opaque set_run_font para_add_run doc_add_paragraph.

Variable repr : value -> string.













Transparent set_run_font para_add_run doc_add_paragraph.

End Fonts.



(* ===================================================================== *)
(** * The command line *)
(* ===================================================================== *)

Lemma length_append s t : String.length (s +:+ t) = String.length s + String.length t.
Proof.
  induction s as [|a s IH]; [done |].
  change (String a s +:+ t) with (String a (s +:+ t)). cbn. by f_equal.
Qed.

Lemma substring_all t : String.substring 0 (String.length t) t = t.
Proof. induction t as [|a t IH]; [done |]. cbn. by f_equal. Qed.

Lemma substring_append s t :
  String.substring (String.length s) (String.length t) (s +:+ t) = t.
Proof.
  induction s as [|a s IH]; [apply substring_all |].
  change (String a s +:+ t) with (String a (s +:+ t)). exact IH.
Qed.

Lemma endswith_append s t : endswith (s +:+ t) t = true.
Proof.
  unfold endswith. cbv zeta. rewrite length_append.
  replace (String.length s + String.length t - String.length t) with (String.length s) by lia.
  rewrite substring_append, String.eqb_refl.
  apply andb_true_intro. split; [| done]. apply Nat.leb_le. lia.
Qed.

Section CommandLine.

Variable h : host.

(** C5: when the input path does not exist, the script prints its two
    lines about the missing file and exits with status 1; the file
    system is left as it was, so no document is written. *)
Theorem missing_input_exits a w :
  file_at h w (arg_input a) = None ->
  main h a w
  = (SysExit 1,
     print "Создайте файл resume_data.json с данными резюме."
       (print ("Ошибка: файл " +:+ arg_input a +:+ " не найден!") w))
  /\ exit_status (main h a w).1 <> 0%Z
  /\ files (main h a w).2 = files w
  /\ stdout (main h a w).2
     = stdout w ++ ["Ошибка: файл " +:+ arg_input a +:+ " не найден!";
                    "Создайте файл resume_data.json с данными резюме."].
Proof.
  intros Hin. unfold main, generate_resume. rewrite Hin. cbn.
  repeat split; [done |]. by rewrite <- app_assoc.
Qed.

(** C6: a name that does not end in [.docx] gets the extension appended,
    once; a name that ends in it is used as it is; the document is
    written under the resulting name, so that a file is there whenever
    the generation succeeds. *)
Theorem output_extension_added_once a w :
  (endswith (arg_output a) ".docx" = false -> output_name a = arg_output a +:+ ".docx")
  /\ (endswith (arg_output a) ".docx" = true -> output_name a = arg_output a)
  /\ endswith (output_name a) ".docx" = true
  /\ output_name {| arg_input := arg_input a; arg_output := output_name a;
                    arg_pdf := arg_pdf a |}
     = output_name a
  /\ main h a w
     = match generate_resume h (arg_input a) (output_name a) w with
       | (Finished, w1) =>
           if arg_pdf a then pdf_bridge h (output_name a) w1 else (Finished, w1)
       | stopped => stopped
       end
  /\ (forall w1,
         generate_resume h (arg_input a) (output_name a) w = (Finished, w1) ->
         exists doc, file_at h w1 (output_name a) = Some (h_docx_bytes h doc))
  /\ (forall w1,
         arg_pdf a = false -> main h a w = (Finished, w1) ->
         is_Some (file_at h w1 (output_name a))).
Proof.
  assert (endswith (output_name a) ".docx" = true) as Hends.
  { unfold output_name. destruct (endswith (arg_output a) ".docx") eqn:He; cbn; [done |].
    apply endswith_append. }
  assert (forall w1,
             generate_resume h (arg_input a) (output_name a) w = (Finished, w1) ->
             exists doc, file_at h w1 (output_name a) = Some (h_docx_bytes h doc)) as Hgen.
  { intros w1. unfold generate_resume.
    destruct (file_at h w (arg_input a)) as [text|]; [| done].
    destruct (h_json_load h text) as [data| |]; try done.
    destruct (build (h_repr h) data) as [doc|]; [| done].
    destruct (h_can_save h (output_name a) (files w)); [| done].
    intros [= <-]. exists doc. unfold file_at. cbn. apply lookup_insert_eq. }
  split; [| split; [| split; [| split; [| split; [| split]]]]].
  - intros He. unfold output_name. by rewrite He.
  - intros He. unfold output_name. by rewrite He.
  - exact Hends.
  - unfold output_name at 1. cbn [arg_output]. by rewrite Hends.
  - reflexivity.
  - exact Hgen.
  - intros w1 Hpdf. unfold main. rewrite Hpdf.
    destruct (generate_resume h (arg_input a) (output_name a) w) as [[| |] w2] eqn:Hg;
      try done.
    intros [= <-]. destruct (Hgen w2 eq_refl) as [doc Hdoc]. by exists (h_docx_bytes h doc).
Qed.

End CommandLine.

(** C5, witness: no input file in an empty directory. *)
Lemma missing_input_exits_witness :
  file_at bare_host empty_world "resume_data.json" = None
  /\ main bare_host default_arguments empty_world
     = (SysExit 1,
        {| files := ∅;
           stdout := ["Ошибка: файл resume_data.json не найден!";
                      "Создайте файл resume_data.json с данными резюме."];
           events := [] |}).
Proof.
  split; [reflexivity |].
  exact (proj1 (missing_input_exits bare_host default_arguments empty_world eq_refl)).
Defined.

(** C6, witness: the output name [cv] becomes [cv.docx], and the file is
    there after the run. *)
Lemma output_extension_added_once_witness :
  endswith "cv" ".docx" = false
  /\ output_name {| arg_input := "resume_data.json"; arg_output := "cv"; arg_pdf := false |}
     = "cv.docx"
  /\ (main bare_host
        {| arg_input := "resume_data.json"; arg_output := "cv"; arg_pdf := false |}
        world_with_input).1 = Finished
  /\ file_at bare_host
       (main bare_host
          {| arg_input := "resume_data.json"; arg_output := "cv"; arg_pdf := false |}
          world_with_input).2 "cv.docx" = Some "PK".
Proof.
  split; [reflexivity |]. split.
  - exact (proj1 (output_extension_added_once bare_host
                    {| arg_input := "resume_data.json"; arg_output := "cv";
                       arg_pdf := false |} world_with_input) eq_refl).
  - split; vm_compute; reflexivity.
Defined.

(* ===================================================================== *)
(** * The PDF stage *)
(* ===================================================================== *)

Lemma stdout_print_all lines w : stdout (print_all lines w) = stdout w ++ lines.
Proof.
  revert w. induction lines as [|l lines IH]; intros w; cbn.
  - by rewrite app_nil_r.
  - unfold print_all in IH. rewrite IH. cbn. by rewrite <- app_assoc.
Qed.


Section Bridge.

Variable h : host.


(** C8: with PDF output requested and the document written, when the
    container engine is not on the path and docx2pdf cannot be
    imported, the script reports the failed attempt, prints the
    guidance and exits with status 1; it does the same after any other
    failure of the container attempt. The guidance names both
    remedies: Docker with the image, and docx2pdf. *)
Theorem no_converter_guidance a w w1 :
  generate_resume h (arg_input a) (output_name a) w = (Finished, w1) ->
  arg_pdf a = true ->
  h_docx2pdf h = None ->
  (h_which h "docker" = None ->
   main h a w
   = (SysExit 1,
      {| files := files w1;
         stdout := stdout w1
                   ++ ["Попытка через Docker не удалась: " +:+ docker_not_installed;
                       "Пробую альтернативный метод через docx2pdf..."]
                   ++ install_guidance;
         events := events w1 ++ [DockerLookup; Docx2pdfImport] |}))
  /\ (forall msg w2,
         convert_docx_to_pdf_docker h (output_name a)
           (Some (replace ".docx" ".pdf" (output_name a))) w1 = (RuntimeError msg, w2) ->
         (main h a w).1 = SysExit 1
         /\ stdout (main h a w).2
            = stdout w2
              ++ ["Попытка через Docker не удалась: " +:+ msg;
                  "Пробую альтернативный метод через docx2pdf..."]
              ++ install_guidance)
  /\ exit_status (SysExit 1) <> 0%Z
  /\ existsb (contains "Установить Docker и образ: docker pull") install_guidance = true
  /\ existsb (contains "установить библиотеку docx2pdf: pip install docx2pdf")
       install_guidance = true.
Proof.
  intros Hgen Hpdf Himport.
  assert (forall msg w2,
             convert_docx_to_pdf_docker h (output_name a)
               (Some (replace ".docx" ".pdf" (output_name a))) w1 = (RuntimeError msg, w2) ->
             main h a w
             = (SysExit 1,
                print_all install_guidance
                  (log Docx2pdfImport
                     (print "Пробую альтернативный метод через docx2pdf..."
                        (print ("Попытка через Docker не удалась: " +:+ msg) w2)))))
    as Hmain.
  { intros msg w2 Hconv. unfold main. rewrite Hgen, Hpdf. unfold pdf_bridge. cbv zeta.
    by rewrite Hconv, Himport. }
  split; [| split; [| split; [| split]]].
  - intros Hwhich.
    rewrite (Hmain docker_not_installed (log DockerLookup w1)).
    + f_equal. unfold print_all, install_guidance, print, log. cbn.
      f_equal; by rewrite <- ?app_assoc.
    + unfold convert_docx_to_pdf_docker. cbv zeta. by rewrite Hwhich.
  - intros msg w2 Hconv. rewrite (Hmain msg w2 Hconv). unfold fst, snd.
    split; [done |]. rewrite stdout_print_all. cbn. by rewrite <- !app_assoc.
  - done.
  - vm_compute. reflexivity.
  - vm_compute. reflexivity.
Qed.

End Bridge.

(** C8, witness: a machine with neither Docker nor docx2pdf, asked for a
    PDF. *)
Lemma no_converter_guidance_witness :
  main bare_host
    {| arg_input := "resume_data.json"; arg_output := "cv"; arg_pdf := true |}
    world_with_input
  = (SysExit 1,
     {| files := {[ "/work/resume_data.json" := "{}"; "/work/cv.docx" := "PK" ]};
        stdout := ["Резюме успешно создано: cv.docx";
                   "Попытка через Docker не удалась: Docker не установлен или не доступен в PATH";
                   "Пробую альтернативный метод через docx2pdf...";
                   "Ошибка: для создания PDF необходимо:";
                   "  1. Установить Docker и образ: docker pull linuxserver/libreoffice:latest";
                   "  2. Или установить библиотеку docx2pdf: pip install docx2pdf"];
        events := [DockerLookup; Docx2pdfImport] |})
  /\ (main bare_host
        {| arg_input := "resume_data.json"; arg_output := "cv"; arg_pdf := true |}
        world_with_input).1 = SysExit 1.
Proof.
  split; [| vm_compute; reflexivity].
  refine (proj1 (no_converter_guidance bare_host
                   {| arg_input := "resume_data.json"; arg_output := "cv"; arg_pdf := true |}
                   world_with_input _ eq_refl eq_refl eq_refl) eq_refl).
Defined.

Section Fallback.

Variable h : host.



End Fallback.



(* ===================================================================== *)
(** * The assembler on every record *)
(* ===================================================================== *)

Lemma code_points_nonempty a s : code_points (String a s) <> [].
Proof.
  cbn [code_points]. destruct (code_points s) as [|c cs]; [done |].
  destruct c as [|b c']; [done |]. by destruct (is_continuation b).
Qed.

Lemma py_get_not_dict v k default :
  is_dict v = false -> py_get v k default = Raise AttributeError.
Proof. by destruct v. Qed.

Lemma bind_raise {A B} (m : M A) (k : A -> M B) d e :
  m d = Raise e -> (m ≫= k) d = Raise e.
Proof. intros Hm. unfold mbind, M_bind. by rewrite Hm. Qed.

(** A loop over any list: it appends the paragraphs of the dicts, and
    stops at the first element that is not a dict. *)
Lemma for_each_any (f : value -> M unit) (g : gmap string value -> list paragraph) :
  (forall o d, f (VDict o) d = Ok (tt, d ⊕ g o)) ->
  (forall v d, is_dict v = false -> f v d = Raise AttributeError) ->
  forall l d,
    for_each l f d
    = (fun es => (tt, d ⊕ concat (g <$> es)))
        <$> from_option Ok (Raise AttributeError) (all_dicts l).
Proof.
  intros Hdict Hother. induction l as [|v l IH]; intros d.
  - cbn. by rewrite extend_nil.
  - cbn [for_each]. destruct (is_dict v) eqn:Hv.
    + destruct v as [| | | | | |o]; try discriminate Hv.
      erewrite bind_ok; [| apply Hdict]. rewrite IH. cbn [all_dicts].
      destruct (all_dicts l) as [es|]; cbn; [| done].
      by rewrite extend_extend.
    + rewrite (bind_raise _ _ _ AttributeError) by by apply Hother.
      by destruct v.
Qed.

(** The loop over the value of a field that is not empty. *)
Lemma loop_any (f : value -> M unit) (g : gmap string value -> list paragraph) v d :
  (forall o d, f (VDict o) d = Ok (tt, d ⊕ g o)) ->
  (forall v d, is_dict v = false -> f v d = Raise AttributeError) ->
  truthy v = true ->
  (items ← lift (py_iter v); for_each items f) d
  = (fun es => (tt, d ⊕ concat (g <$> es))) <$> entries_of v.
Proof.
  intros Hdict Hother Ht. unfold entries_of. rewrite Ht.
  destruct v as [|b|z|x|s|l|o]; try done.
  - destruct s as [|a s]; [done |]. cbn [py_iter]. rewrite bind_lift_ok.
    pose proof (code_points_nonempty a s) as Hne.
    destruct (code_points (String a s)) as [|c cs]; [done |].
    cbn [fmap list_fmap for_each].
    by rewrite (bind_raise _ _ _ AttributeError) by by apply Hother.
  - cbn [py_iter]. rewrite bind_lift_ok. by apply for_each_any.
  - cbn [py_iter]. rewrite bind_lift_ok.
    destruct (map_to_list o) as [|[k x] kxs] eqn:Hl.
    + apply map_to_list_empty_iff in Hl. subst o. done.
    + cbn [fmap list_fmap for_each fst].
      by rewrite (bind_raise _ _ _ AttributeError) by by apply Hother.
Qed.

Section AnyRecord.

Variable repr : value -> string.

Lemma experience_entry_not_dict v d :
  is_dict v = false -> render_experience_entry repr v d = Raise AttributeError.
Proof.
  by destruct v.
Qed.

Lemma education_entry_not_dict v d :
  is_dict v = false -> render_education_entry repr v d = Raise AttributeError.
Proof.
  by destruct v.
Qed.

Lemma section_not_dict v d :
  is_dict v = false -> render_section repr v d = Raise AttributeError.
Proof.
  by destruct v.
Qed.

Lemma truthy_field o k :
  truthy (field o k VNone) = true -> o !! k = Some (field o k VNone).
Proof. unfold field. by destruct (o !! k). Qed.

Lemma entries_nonempty v es : truthy v = true -> entries_of v = Ok es -> es <> [].
Proof.
  unfold entries_of. intros Ht. rewrite Ht. destruct v as [| | | | |l|]; try done.
  destruct l as [|x l]; [done |]. destruct x; try done.
  cbn [all_dicts]. destruct (all_dicts l); cbn; [| done]. by intros [= <-].
Qed.

Lemma render_summary_any o d :
  render_summary (VDict o) d = Ok (tt, d ⊕ summary_of o).
Proof.
  unfold summary_of. cbn zeta. destruct (truthy (field o "summary" VNone)) eqn:Ht.
  - by apply render_summary_present; [apply truthy_field |].
  - rewrite render_summary_skipped by done. by rewrite extend_nil.
Qed.

Lemma render_experience_any o d :
  render_experience repr (VDict o) d
  = (fun es => (tt, d ⊕ experience_of repr es)) <$> entries_of (field o "experience" VNone).
Proof.
  destruct (truthy (field o "experience" VNone)) eqn:Ht.
  - unfold render_experience. cbn [py_get py_item].
    rewrite (truthy_field _ _ Ht). cbn [from_option id]. exec. rewrite Ht.
    do 2 exec.
    rewrite (loop_any _ (experience_entry_pars repr));
      [| apply render_experience_entry_spec | apply experience_entry_not_dict | done].
    destruct (entries_of (field o "experience" VNone)) as [es|e] eqn:He; [| done].
    pose proof (entries_nonempty _ _ Ht He) as Hne.
    destruct es as [|e es]; [done |].
    cbn. by rewrite extend_extend.
  - rewrite render_experience_skipped by done.
    unfold entries_of. rewrite Ht. cbn. by rewrite extend_nil.
Qed.

Lemma render_education_any o d :
  render_education repr (VDict o) d
  = (fun es => (tt, d ⊕ education_of repr es)) <$> entries_of (field o "education" VNone).
Proof.
  destruct (truthy (field o "education" VNone)) eqn:Ht.
  - unfold render_education. cbn [py_get py_item].
    rewrite (truthy_field _ _ Ht). cbn [from_option id]. exec. rewrite Ht.
    do 2 exec.
    rewrite (loop_any _ (education_entry_pars repr));
      [| apply render_education_entry_spec | apply education_entry_not_dict | done].
    destruct (entries_of (field o "education" VNone)) as [es|e] eqn:He; [| done].
    pose proof (entries_nonempty _ _ Ht He) as Hne.
    destruct es as [|e es]; [done |].
    cbn. by rewrite extend_extend.
  - rewrite render_education_skipped by done.
    unfold entries_of. rewrite Ht. cbn. by rewrite extend_nil.
Qed.

Lemma render_additional_any o d :
  render_additional repr (VDict o) d
  = (fun es => (tt, d ⊕ additional_block repr es))
      <$> entries_of (field o "additional_sections" VNone).
Proof.
  destruct (truthy (field o "additional_sections" VNone)) eqn:Ht.
  - unfold render_additional. cbn [py_get py_item].
    rewrite (truthy_field _ _ Ht). cbn [from_option id]. exec. rewrite Ht.
    exec.
    by rewrite (loop_any _ (section_pars repr));
      [| apply render_section_spec | apply section_not_dict | done].
  - rewrite render_additional_skipped by done.
    unfold entries_of. rewrite Ht. cbn. by rewrite extend_nil.
Qed.

Lemma render_skills_any o d :
  render_skills (VDict o) d = (fun ps => (tt, d ⊕ ps)) <$> skills_of o.
Proof.
  unfold skills_of. cbn zeta.
  destruct (truthy (field o "skills" VNone)) eqn:Ht.
  - destruct (skills_text (field o "skills" VNone)) as [text|] eqn:Htext.
    + by eapply render_skills_present; [apply truthy_field | |].
    + unfold render_skills. cbn [py_get py_item].
      rewrite (truthy_field _ _ Ht). cbn [from_option id]. exec. rewrite Ht.
      do 2 exec. unfold skills_text in Htext.
      destruct (field o "skills" VNone) as [| | | | |l|]; try discriminate Htext.
      cbn [is_list]. repeat exec. cbn [py_join].
      destruct (all_str l); [discriminate Htext | reflexivity].
  - rewrite render_skills_skipped by done. cbn. by rewrite extend_nil.
Qed.

Lemma render_header_not_dict data d :
  is_dict data = false -> render_header repr data d = Raise AttributeError.
Proof.
  by destruct data.
Qed.

Lemma render_header_bad_info o d :
  is_dict (field o "personal_info" (VDict ∅)) = false ->
  render_header repr (VDict o) d = Raise AttributeError.
Proof.
  intros Hv. unfold render_header. cbn [py_get].
  fold (field o "personal_info" (VDict ∅)). exec.
  rewrite (py_get_not_dict _ _ _ Hv). reflexivity.
Qed.

(** Lines 84-194 on any value, from any document. *)
Lemma assemble_layout data d :
  assemble repr data d = (fun ps => (tt, with_base_font d ⊕ ps)) <$> layout repr data.
Proof.
  unfold assemble. erewrite bind_ok; [| reflexivity].
  fold (with_base_font d).
  destruct (is_dict data) eqn:Hdata.
  2: { rewrite (bind_raise _ _ _ AttributeError) by by apply render_header_not_dict.
       by destruct data. }
  destruct data as [| | | | | |o]; try discriminate Hdata. cbn [layout].
  destruct (is_dict (field o "personal_info" (VDict ∅))) eqn:Hinfo.
  2: { rewrite (bind_raise _ _ _ AttributeError) by by apply render_header_bad_info.
       by destruct (field o "personal_info" (VDict ∅)). }
  destruct (field o "personal_info" (VDict ∅)) as [| | | | | |info] eqn:Hi;
    try discriminate Hinfo.
  erewrite bind_ok; [| by apply render_header_spec].
  erewrite bind_ok; [| apply render_summary_any].
  unfold mbind at 1. unfold M_bind. rewrite render_experience_any.
  destruct (entries_of (field o "experience" VNone)) as [exps|e]; [| done].
  cbn [fmap result_fmap mbind result_bind].
  unfold mbind at 1. unfold M_bind. rewrite render_education_any.
  destruct (entries_of (field o "education" VNone)) as [edus|e]; [| done].
  cbn [fmap result_fmap mbind result_bind].
  unfold mbind at 1. unfold M_bind. rewrite render_skills_any.
  destruct (skills_of o) as [skills|e]; [| done].
  cbn [fmap result_fmap mbind result_bind].
  rewrite render_additional_any.
  destruct (entries_of (field o "additional_sections" VNone)) as [sections|e]; [| done].
  cbn [fmap result_fmap mbind result_bind].
  by rewrite !extend_extend.
Qed.

End AnyRecord.

Lemma all_dicts_succeeds l :
  succeeds (from_option Ok (Raise AttributeError) (all_dicts l)) = forallb is_dict l.
Proof.
  induction l as [|v l IH]; [done |].
  destruct v; try done. cbn [all_dicts forallb is_dict andb]. rewrite <- IH.
  by destruct (all_dicts l).
Qed.

Lemma entries_succeeds v : succeeds (entries_of v) = loopable v.
Proof.
  unfold entries_of, loopable. destruct (truthy v); [| done].
  destruct v; try done. apply all_dicts_succeeds.
Qed.

Lemma all_str_succeeds l :
  is_Some (all_str l)
  <-> forallb (fun x => match x with VStr _ => true | _ => false end) l = true.
Proof.
  induction l as [|v l IH]; [by split; [| eexists] |].
  destruct v; cbn [all_str forallb andb]; try (split; [intros [? [=]] | done]).
  rewrite <- IH, fmap_is_Some. done.
Qed.

Lemma skills_succeeds o : succeeds (skills_of o) = joinable (field o "skills" VNone).
Proof.
  unfold skills_of, joinable. cbn zeta.
  destruct (truthy (field o "skills" VNone)); [| done].
  destruct (field o "skills" VNone) as [| | | | |l|]; try done.
  cbn [negb orb skills_text]. pose proof (all_str_succeeds l) as Hl.
  destruct (all_str l) as [parts|]; cbn.
  - symmetry. apply Hl. by eexists.
  - destruct (forallb _ l); [| done]. destruct Hl as [_ Hl]. by destruct (Hl eq_refl).
Qed.

Lemma layout_succeeds repr data : succeeds (layout repr data) = well_formed data.
Proof.
  destruct data as [| | | | | |o]; try done. cbn [layout well_formed].
  rewrite <- !entries_succeeds, <- skills_succeeds.
  destruct (field o "personal_info" (VDict ∅)); try done. cbn [is_dict andb].
  destruct (entries_of (field o "experience" VNone)); [| done].
  destruct (entries_of (field o "education" VNone)); [| done].
  destruct (skills_of o); [| done].
  by destruct (entries_of (field o "additional_sections" VNone)).
Qed.

Lemma entries_no_key_error v : entries_of v <> Raise KeyError.
Proof.
  unfold entries_of. destruct (truthy v); [| done].
  destruct v as [| | | | |l|]; try done. by destruct (all_dicts l).
Qed.

Lemma skills_no_key_error o : skills_of o <> Raise KeyError.
Proof.
  unfold skills_of. cbn zeta. destruct (truthy _); [| done].
  by destruct (skills_text _).
Qed.

Lemma layout_no_key_error repr data : layout repr data <> Raise KeyError.
Proof.
  destruct data as [| | | | | |o]; try done. cbn [layout].
  destruct (field o "personal_info" (VDict ∅)); try done.
  pose proof (entries_no_key_error (field o "experience" VNone)).
  pose proof (entries_no_key_error (field o "education" VNone)).
  pose proof (entries_no_key_error (field o "additional_sections" VNone)).
  pose proof (skills_no_key_error o).
  destruct (entries_of (field o "experience" VNone)) as [|[]]; try done.
  destruct (entries_of (field o "education" VNone)) as [|[]]; try done.
  destruct (skills_of o) as [|[]]; try done.
  by destruct (entries_of (field o "additional_sections" VNone)) as [|[]].
Qed.

Lemma build_layout repr data :
  build repr data
  = (fun ps => {| body := ps; normal_font_name := Some "Calibri";
                  normal_font_size := Some (Pt 11) |}) <$> layout repr data.
Proof. unfold build. rewrite assemble_layout. by destruct (layout repr data). Qed.



(** X5: the assembler never raises [KeyError]: every subscript
    [d[key]] of the script follows a [d.get(key)] that found a
    value. *)
Theorem no_key_error repr data : build repr data <> Raise KeyError.
Proof.
  rewrite build_layout. pose proof (layout_no_key_error repr data).
  by destruct (layout repr data) as [|[]].
Qed.

Lemma field_insert_ne o k k' v default :
  k <> k' -> field (<[k := v]> o) k' default = field o k' default.
Proof. intros Hk. unfold field. by rewrite lookup_insert_ne. Qed.

(** X6: the assembler reads the six top-level fields only: a record
    with any other key added, or with the value under such a key
    changed, has the same document (or ends with the same
    exception). *)
Theorem other_keys_are_ignored repr o k v :
  k ∉ top_level_fields ->
  build repr (VDict (<[k := v]> o)) = build repr (VDict o).
Proof.
  intros Hk. rewrite !build_layout. f_equal.
  unfold layout, summary_of, skills_of.
  rewrite !field_insert_ne; [done | ..];
    intros ->; apply Hk; unfold top_level_fields; repeat constructor.
Qed.

(** X6, witness: a [hobbies] field next to the fields of [ann_record]. *)
Lemma other_keys_are_ignored_witness :
  ("hobbies" ∉ top_level_fields)
  /\ build no_repr (VDict (<["hobbies" := VStr "Chess"]> ann_record))
     = build no_repr (VDict ann_record).
Proof.
  assert ("hobbies" ∉ top_level_fields) as Hk
    by (apply (bool_decide_unpack _); vm_compute; exact I).
  split; [exact Hk |].
  exact (other_keys_are_ignored no_repr ann_record "hobbies" (VStr "Chess") Hk).
Defined.

(** X7: an education entry shows its degree, school and period only:
    any other key of the entry, a [description] among them, leaves the
    paragraphs of the entry as they are. *)
Theorem education_shows_three_fields repr o k v d :
  k ∉ ["degree"; "school"; "period"] ->
  render_education_entry repr (VDict (<[k := v]> o)) d
  = render_education_entry repr (VDict o) d.
Proof.
  intros Hk. rewrite !render_education_entry_spec.
  unfold education_entry_pars, period_pars.
  rewrite !field_insert_ne; [done | ..]; intros ->; apply Hk; repeat constructor.
Qed.

(** X7, witness: a description added to the entry of [ann_education]. *)
Lemma education_shows_three_fields_witness :
  ("description" ∉ ["degree"; "school"; "period"])
  /\ render_education_entry no_repr
       (VDict (<["description" := VStr "With honours"]>
                 (list_to_map [("degree", VStr "BSc"); ("school", VStr "MIT")]))) Document
     = render_education_entry no_repr
         (VDict (list_to_map [("degree", VStr "BSc"); ("school", VStr "MIT")])) Document.
Proof.
  assert ("description" ∉ ["degree"; "school"; "period"]) as Hk
    by (apply (bool_decide_unpack _); vm_compute; exact I).
  split; [exact Hk |].
  exact (education_shows_three_fields no_repr _ "description" (VStr "With honours") Document Hk).
Defined.

(* ===================================================================== *)
(** * The helpers on any document *)
(* ===================================================================== *)





(* ===================================================================== *)
(** * The program on every input *)
(* ===================================================================== *)

Section Generation.

Variable h : host.

Lemma generate_resume_events data_file output_file w :
  events (generate_resume h data_file output_file w).2 = events w.
Proof.
  unfold generate_resume.
  destruct (file_at h w data_file) as [text|]; [| done].
  destruct (h_json_load h text) as [data| |]; try done.
  destruct (build (h_repr h) data) as [doc|]; [| done].
  by destruct (h_can_save h output_file (files w)).
Qed.

(** X10: [generate_resume] writes one file at most, the output, and
    only at the end of a run that loaded and assembled the whole
    document: every other file is left as it was, and a run that stops
    before leaves all files as they were. It starts no other
    program. *)
Theorem generation_writes_the_output_only data_file output_file w :
  (forall path,
      path <> h_abspath h output_file ->
      files (generate_resume h data_file output_file w).2 !! path = files w !! path)
  /\ ((generate_resume h data_file output_file w).1 <> Finished ->
      files (generate_resume h data_file output_file w).2 = files w)
  /\ events (generate_resume h data_file output_file w).2 = events w.
Proof.
  split; [| split; [| apply generate_resume_events]]; unfold generate_resume;
    (destruct (file_at h w data_file) as [text|]; [| done]);
    (destruct (h_json_load h text) as [data| |]; try done);
    (destruct (build (h_repr h) data) as [doc|]; [| done]);
    (destruct (h_can_save h output_file (files w)); [| done]); cbn.
  - intros path Hpath. by rewrite lookup_insert_ne.
  - done.
Qed.

(** X11: a run of [generate_resume] that ends normally read a JSON text
    at the input path, parsed it to a record the assembler accepts, and
    left at the output path the document whose body is the layout of
    that record; it printed one line, naming the output. *)
Theorem finished_generation data_file output_file w w' :
  generate_resume h data_file output_file w = (Finished, w') ->
  exists text data ps,
    file_at h w data_file = Some text
    /\ h_json_load h text = Loaded data
    /\ well_formed data = true
    /\ layout (h_repr h) data = Ok ps
    /\ file_at h w' output_file
       = Some (h_docx_bytes h {| body := ps; normal_font_name := Some "Calibri";
                                 normal_font_size := Some (Pt 11) |})
    /\ stdout w' = stdout w ++ ["Резюме успешно создано: " +:+ output_file].
Proof.
  unfold generate_resume.
  destruct (file_at h w data_file) as [text|] eqn:Hin; [| done].
  destruct (h_json_load h text) as [data| |] eqn:Hload; try done.
  pose proof (build_layout (h_repr h) data) as Hbuild.
  pose proof (layout_succeeds (h_repr h) data) as Hwf.
  destruct (build (h_repr h) data) as [doc|]; [| done].
  destruct (h_can_save h output_file (files w)); [| done].
  intros [= <-].
  destruct (layout (h_repr h) data) as [ps|] eqn:Hlay; [| done].
  injection Hbuild as ->.
  exists text, data, ps.
  split; [done |]. split; [done |]. split; [done |]. split; [done |].
  split; [| done].
  unfold file_at. cbn. apply lookup_insert_eq.
Qed.

(** X12: the PDF stage begins only when [--pdf] was given and the
    document has been written: without the flag, or after a generation
    that stopped, no converter is looked for, started or imported. *)
Theorem pdf_stage_needs_flag_and_document a w :
  events (main h a w).2 <> events w ->
  arg_pdf a = true
  /\ (generate_resume h (arg_input a) (output_name a) w).1 = Finished.
Proof.
  unfold main.
  pose proof (generate_resume_events (arg_input a) (output_name a) w) as Hev.
  destruct (generate_resume h (arg_input a) (output_name a) w) as [[| |] w1];
    unfold fst, snd in *; try (intros Hne; by destruct Hne).
  destruct (arg_pdf a); [done |]. intros Hne. by destruct Hne.
Qed.


(** X14: a text that is not JSON ends the run with exit status 1 after
    one line that carries the parser's message; a file that is not
    UTF-8 ends it with the decoder's exception, uncaught. Either way
    no file is written and the PDF stage does not begin. *)
Theorem unreadable_input_stops_the_run a w text :
  file_at h w (arg_input a) = Some text ->
  (forall detail,
      h_json_load h text = JSONDecodeError detail ->
      main h a w = (SysExit 1, print ("Ошибка при чтении JSON: " +:+ detail) w))
  /\ (h_json_load h text = UnicodeDecodeError ->
      main h a w = (Uncaught DecodeError, w)).
Proof.
  intros Hin. unfold main, generate_resume. rewrite Hin.
  split; [intros detail Hload | intros Hload]; by rewrite Hload.
Qed.

End Generation.

(** X11, witness: the run of [bare_host] on its input file. *)
Lemma finished_generation_witness :
  generate_resume bare_host "resume_data.json" "resume.docx" world_with_input
  = (Finished,
     {| files := {[ "/work/resume_data.json" := "{}"; "/work/resume.docx" := "PK" ]};
        stdout := ["Резюме успешно создано: resume.docx"];
        events := [] |})
  /\ exists text data ps,
       file_at bare_host world_with_input "resume_data.json" = Some text
       /\ h_json_load bare_host text = Loaded data
       /\ well_formed data = true
       /\ layout (h_repr bare_host) data = Ok ps
       /\ file_at bare_host
            {| files := {[ "/work/resume_data.json" := "{}"; "/work/resume.docx" := "PK" ]};
               stdout := ["Резюме успешно создано: resume.docx"];
               events := [] |} "resume.docx"
          = Some (h_docx_bytes bare_host
                    {| body := ps; normal_font_name := Some "Calibri";
                       normal_font_size := Some (Pt 11) |})
       /\ stdout {| files := {[ "/work/resume_data.json" := "{}"; "/work/resume.docx" := "PK" ]};
                    stdout := ["Резюме успешно создано: resume.docx"];
                    events := [] |}
          = stdout world_with_input ++ ["Резюме успешно создано: " +:+ "resume.docx"].
Proof.
  assert (generate_resume bare_host "resume_data.json" "resume.docx" world_with_input
          = (Finished,
             {| files := {[ "/work/resume_data.json" := "{}"; "/work/resume.docx" := "PK" ]};
                stdout := ["Резюме успешно создано: resume.docx"];
                events := [] |})) as Hrun by (vm_compute; reflexivity).
  split; [exact Hrun |].
  exact (finished_generation bare_host _ _ _ _ Hrun).
Defined.

(** X12, witness: [bare_host] asked for a PDF looks for Docker. *)
Lemma pdf_stage_needs_flag_and_document_witness :
  events (main bare_host
            {| arg_input := "resume_data.json"; arg_output := "cv"; arg_pdf := true |}
            world_with_input).2 <> events world_with_input
  /\ arg_pdf {| arg_input := "resume_data.json"; arg_output := "cv"; arg_pdf := true |} = true
  /\ (generate_resume bare_host "resume_data.json" "cv.docx" world_with_input).1 = Finished.
Proof.
  assert (events (main bare_host
                    {| arg_input := "resume_data.json"; arg_output := "cv"; arg_pdf := true |}
                    world_with_input).2 <> events world_with_input) as Hev
    by (vm_compute; discriminate).
  split; [exact Hev |].
  exact (pdf_stage_needs_flag_and_document bare_host _ _ Hev).
Defined.


(** X14, witness: an input file that holds an opening brace only. *)
Lemma unreadable_input_stops_the_run_witness :
  file_at bare_host world_with_broken_input (arg_input default_arguments) = Some "{"
  /\ main bare_host default_arguments world_with_broken_input
     = (SysExit 1,
        print ("Ошибка при чтении JSON: " +:+ "Expecting value: line 1 column 1 (char 0)")
          world_with_broken_input).
Proof.
  split; [reflexivity |].
  exact (proj1 (unreadable_input_stops_the_run bare_host default_arguments
                  world_with_broken_input "{" eq_refl) _ eq_refl).
Defined.

(* ===================================================================== *)
(** * The name and the report of the PDF *)
(* ===================================================================== *)

Lemma append_cons a s t : String a s +:+ t = String a (s +:+ t).
Proof. reflexivity. Qed.

Lemma prefix_docx_append a s :
  String.prefix ".docx" (String a s) = false ->
  String.prefix ".docx" (String a s +:+ ".docx") = false.
Proof.
  rewrite append_cons. cbn [String.prefix].
  destruct (ascii_dec _ a); [| done].
  destruct s as [|b s]; [done |]. rewrite append_cons. cbn [String.prefix].
  destruct (ascii_dec _ b); [| done].
  destruct s as [|c s]; [done |]. rewrite append_cons. cbn [String.prefix].
  destruct (ascii_dec _ c); [| done].
  destruct s as [|x s]; [done |]. rewrite append_cons. cbn [String.prefix].
  destruct (ascii_dec _ x); [| done].
  destruct s as [|y s]; [done |]. rewrite append_cons. cbn [String.prefix].
  destruct (ascii_dec _ y); [by destruct s | done].
Qed.

Lemma replace_plain_stem stem :
  contains ".docx" stem = false ->
  replace ".docx" ".pdf" (stem +:+ ".docx") = stem +:+ ".pdf".
Proof.
  unfold replace. induction stem as [|a s IH]; [done |].
  cbn [contains]. intros [Hhere Hrest]%orb_false_elim.
  pose proof (prefix_docx_append a s Hhere) as Hp.
  rewrite !append_cons in *. cbn [replace_from]. rewrite Hp.
  f_equal. by apply IH.
Qed.

Lemma endswith_contains suffix s : endswith s suffix = true -> contains suffix s = true.
Proof.
  unfold endswith. cbv zeta. intros [Hlen Heq]%andb_prop.
  apply Nat.leb_le in Hlen. apply String.eqb_eq in Heq.
  revert Hlen Heq. induction s as [|a s IH]; intros Hlen Heq.
  - cbn in *. destruct suffix; [done | cbn in Hlen; lia].
  - cbn [contains]. apply orb_true_iff.
    destruct (decide (String.length (String a s) = String.length suffix)) as [He|Hne].
    + left. rewrite He, Nat.sub_diag, <- He, substring_all in Heq. rewrite <- Heq.
      clear. generalize (String a s). intros t. induction t as [|b t IH]; [done |].
      cbn. by destruct (ascii_dec b b).
    + right. apply IH; [cbn in Hlen, Hne; lia |].
      cbn [String.length] in Heq, Hne, Hlen.
      replace (S (String.length s) - String.length suffix)
        with (S (String.length s - String.length suffix)) in Heq by lia.
      exact Heq.
Qed.

(** X15: the PDF takes the name of the document with [.pdf] for
    [.docx]: an output given as [stem] or as [stem.docx], where [stem]
    does not itself contain [.docx], gives the document [stem.docx] and
    the PDF [stem.pdf]. *)
Theorem pdf_name_of_output a stem :
  contains ".docx" stem = false ->
  arg_output a = stem \/ arg_output a = stem +:+ ".docx" ->
  output_name a = stem +:+ ".docx"
  /\ replace ".docx" ".pdf" (output_name a) = stem +:+ ".pdf".
Proof.
  intros Hstem Hout.
  assert (output_name a = stem +:+ ".docx") as Hname.
  { unfold output_name. destruct Hout as [-> | ->].
    - destruct (endswith stem ".docx") eqn:He; [| done].
      apply endswith_contains in He. congruence.
    - by rewrite endswith_append. }
  split; [exact Hname |]. rewrite Hname. by apply replace_plain_stem.
Qed.

(** X15, witness: the output [cv]. *)
Lemma pdf_name_of_output_witness :
  contains ".docx" "cv" = false
  /\ output_name {| arg_input := "resume_data.json"; arg_output := "cv"; arg_pdf := true |}
     = "cv" +:+ ".docx"
  /\ replace ".docx" ".pdf"
       (output_name {| arg_input := "resume_data.json"; arg_output := "cv"; arg_pdf := true |})
     = "cv" +:+ ".pdf".
Proof.
  split; [reflexivity |].
  exact (pdf_name_of_output
           {| arg_input := "resume_data.json"; arg_output := "cv"; arg_pdf := true |}
           "cv" eq_refl (or_introl eq_refl)).
Defined.

Section Report.

Variable h : host.

(** The container attempt prints nothing. *)
Lemma container_stdout docx_file pdf_file w :
  stdout (convert_docx_to_pdf_docker h docx_file pdf_file w).2 = stdout w.
Proof.
  unfold convert_docx_to_pdf_docker. cbv zeta.
  destruct (h_which h "docker") as [path|]; [| done].
  destruct (h_run h _ _) as [[| |] fs];
    [destruct (_ && _); [destruct (h_rename h _ _ _) |] | |]; done.
Qed.

(** X16: the PDF stage prints its line [PDF версия создана: ...] last,
    and exactly when it ends normally: after a failure of both
    converters, or of the move of the PDF, the line is not printed. *)
Theorem success_line_iff_converted out w :
  (pdf_bridge h out w).1 = Finished
  <-> exists lines,
        stdout (pdf_bridge h out w).2
        = stdout w ++ lines ++ ["PDF версия создана: " +:+ replace ".docx" ".pdf" out].
Proof.
  unfold pdf_bridge. cbv zeta.
  pose proof (container_stdout out (Some (replace ".docx" ".pdf" out)) w) as Hst.
  destruct (convert_docx_to_pdf_docker h out _ w) as [[pdf_abs|msg|] w1]; unfold snd in Hst.
  - split; [intros _ | done]. exists []. cbn. by rewrite Hst.
  - destruct (h_docx2pdf h) as [convert|].
    + destruct (convert _ _ _) as [[| |e2] fs]; unfold fst, snd;
        rewrite ?stdout_print_all; cbn [stdout print log with_files]; rewrite Hst.
      * split; [intros _ | done]. eexists [_; _]. by rewrite <- !app_assoc.
      * split; [done |]. intros [lines Hl]. rewrite <- !app_assoc in Hl.
        apply app_inv_head in Hl.
        change (?a :: ?b :: install_guidance) with ([a; b] ++ install_guidance) in Hl.
        unfold install_guidance in Hl.
        apply (f_equal last) in Hl. rewrite last_snoc in Hl. cbn in Hl.
        vm_compute in Hl. discriminate Hl.
      * split; [done |]. intros [lines Hl]. rewrite <- !app_assoc in Hl.
        apply app_inv_head in Hl.
        apply (f_equal last) in Hl. rewrite last_snoc in Hl. cbn in Hl.
        vm_compute in Hl. discriminate Hl.
    + unfold fst, snd. rewrite stdout_print_all. cbn [stdout print log with_files].
      rewrite Hst. split; [done |]. intros [lines Hl]. rewrite <- !app_assoc in Hl.
      apply app_inv_head in Hl.
      apply (f_equal last) in Hl. rewrite last_snoc in Hl. cbn in Hl.
      vm_compute in Hl. discriminate Hl.
  - unfold fst, snd. rewrite Hst. split; [done |]. intros [lines Hl].
    rewrite <- (app_nil_r (stdout w)) in Hl at 1.
    apply app_inv_head in Hl. by destruct lines.
Qed.

(** X17: the container attempt does not check that the PDF is there.
    When Docker is on the path and the container ends with status zero
    without writing anything, so that no file is at the place where the
    container would leave the PDF, the PDF stage still ends normally
    and prints that the PDF was created; the file system is as it was
    before the stage, and the fallback is not tried. *)
Theorem success_reported_without_pdf out w path :
  h_which h "docker" = Some path ->
  (forall cmd, h_run h cmd (files w) = (Completed, files w)) ->
  file_at h w (generated_pdf h out) = None ->
  (pdf_bridge h out w).1 = Finished
  /\ files (pdf_bridge h out w).2 = files w
  /\ stdout (pdf_bridge h out w).2
     = stdout w ++ ["PDF версия создана: " +:+ replace ".docx" ".pdf" out]
  /\ events (pdf_bridge h out w).2
     = events w ++ [DockerLookup; DockerRun (docker_command h out)].
Proof.
  intros Hwhich Hrun Hnone. unfold file_at, generated_pdf in Hnone.
  unfold pdf_bridge, convert_docx_to_pdf_docker. cbv zeta.
  rewrite Hwhich. cbn [files log]. rewrite Hrun, Hnone.
  rewrite bool_decide_eq_false_2 by (by intros [? ?]).
  cbn. by rewrite <- app_assoc.
Qed.

(** X18: the only program the container attempt starts is Docker, once
    at most and only after it was found on the path, with the command
    line of the source: the directory of the document mounted at
    [/convert], the image named by [LIBREOFFICE_DOCKER_IMAGE] or else
    [linuxserver/libreoffice:latest], and the document as
    [/convert/<name>]. *)
Theorem container_command docx_file pdf_file w :
  events (convert_docx_to_pdf_docker h docx_file pdf_file w).2
  = events w ++ (if h_which h "docker" is Some _
                 then [DockerLookup; DockerRun (docker_command h docx_file)]
                 else [DockerLookup]).
Proof.
  unfold convert_docx_to_pdf_docker, docker_command. cbv zeta.
  destruct (h_which h "docker") as [path|]; [| done].
  destruct (h_run h _ _) as [[| |] fs];
    [destruct (_ && _); [destruct (h_rename h _ _ _) |] | |];
    cbn; by rewrite <- (app_assoc (events w)).
Qed.

End Report.

(** X17, witness: [idle_host] after the document was written. *)
Lemma success_reported_without_pdf_witness :
  h_which idle_host "docker" = Some "/usr/bin/docker"
  /\ file_at idle_host world_after_generation (generated_pdf idle_host "resume.docx") = None
  /\ (pdf_bridge idle_host "resume.docx" world_after_generation).1 = Finished
  /\ files (pdf_bridge idle_host "resume.docx" world_after_generation).2
     = files world_after_generation
  /\ stdout (pdf_bridge idle_host "resume.docx" world_after_generation).2
     = stdout world_after_generation
       ++ ["PDF версия создана: " +:+ replace ".docx" ".pdf" "resume.docx"]
  /\ events (pdf_bridge idle_host "resume.docx" world_after_generation).2
     = events world_after_generation
       ++ [DockerLookup; DockerRun (docker_command idle_host "resume.docx")].
Proof.
  assert (file_at idle_host world_after_generation (generated_pdf idle_host "resume.docx")
          = None) as Hnone by (vm_compute; reflexivity).
  split; [reflexivity |]. split; [exact Hnone |].
  exact (success_reported_without_pdf idle_host "resume.docx" world_after_generation
           "/usr/bin/docker" eq_refl (fun _ => eq_refl) Hnone).
Defined.
